(** * Bio-link backend: the handlers of [server.py] / [api/index.py]

    A shallow embedding of the FastAPI handlers over a model of the
    MongoDB collections they talk to.  The two source files carry the same
    handlers (the second only obtains [db] lazily), so one embedding covers
    both.

    - A BSON document is a Python [dict]: a finite map from field names to
      values ([gmap string value]).
    - A collection is the list of its documents in natural (insertion) order.
    - A handler is a computation in a state-and-exception monad over the
      [world]: the two collections plus the positions reached in the two
      external sequences the handlers read, the clock ([datetime.utcnow()])
      and the ObjectId generator ([ObjectId()]).  A raised exception keeps
      the writes already made, as in Python.
    - The driver encodes what it sends to BSON first: an integer outside
      8 bytes makes an insert or an update raise [OverflowError] before
      anything is written.
    - What lives in libraries outside the repository is taken as a Section
      variable: the [ObjectId(str)] parser, [str(ObjectId)], [str(datetime)],
      the clock readings and the generated ObjectIds. *)

From Stdlib Require Import ZArith NArith Ascii String List Sorted Permutation Lia.
From Stdlib Require Import OrdersEx.
From stdpp Require Import base option list gmap strings pretty sorting.

Local Open Scope Z_scope.
Local Open Scope string_scope.
Local Open Scope list_scope.

(** ** BSON values and documents *)

(** A 12-byte ObjectId, read as a big-endian number. *)
Abbreviation ObjectId := N.

(** A BSON UTC datetime. *)
Abbreviation datetime := Z.

(** The values the handlers store; Python's [None] is BSON null. *)
Inductive value : Type :=
  | VNull
  | VInt (z : Z)
  | VStr (s : string)
  | VOid (o : ObjectId)
  | VDate (t : datetime).

#[global] Instance value_eq_dec : EqDecision value.
Proof. solve_decision. Defined.

#[global] Instance VOid_inj : Inj (=) (=) VOid.
Proof. by intros ?? [=]. Qed.

Abbreviation doc := (gmap string value).

(** ** Request bodies (the pydantic models) *)

Module BioProfileCreate.
Record t : Type := Build
  { name : string; description : string; profile_image : string }.

Definition dict (p : t) : doc :=
  {[ "name" := VStr (name p);
     "description" := VStr (description p);
     "profile_image" := VStr (profile_image p) ]}.
End BioProfileCreate.

Module SocialLinkCreate.
Record t : Type := Build
  { title : string; url : string; icon_type : string; order : Z }.

Definition dict (l : t) : doc :=
  {[ "title" := VStr (title l);
     "url" := VStr (url l);
     "icon_type" := VStr (icon_type l);
     "order" := VInt (order l) ]}.
End SocialLinkCreate.

Module SocialLinkUpdate.
(** Every field is [Optional[...] = None]. *)
Record t : Type := Build
  { title : option string; url : option string;
    icon_type : option string; order : option Z }.

Definition opt_str (o : option string) : value :=
  match o with Some s => VStr s | None => VNull end.

Definition opt_int (o : option Z) : value :=
  match o with Some z => VInt z | None => VNull end.

Definition dict (l : t) : doc :=
  {[ "title" := opt_str (title l);
     "url" := opt_str (url l);
     "icon_type" := opt_str (icon_type l);
     "order" := opt_int (order l) ]}.

(** [{k: v for k, v in link_data.dict().items() if v is not None}] *)
Definition update_data (l : t) : doc :=
  filter (fun kv => kv.2 <> VNull) (dict l).
End SocialLinkUpdate.

(** ** The world: collections, clock, ObjectId generator *)

Record world : Type := World
  { bio_profiles : list doc;
    social_links : list doc;
    clock : nat;          (* calls of datetime.utcnow() so far *)
    oid_counter : nat }.  (* ObjectIds generated so far *)

Inductive collection : Type := Cbio_profiles | Csocial_links.

Definition coll (c : collection) (w : world) : list doc :=
  match c with
  | Cbio_profiles => bio_profiles w
  | Csocial_links => social_links w
  end.

Definition set_coll (c : collection) (l : list doc) (w : world) : world :=
  match c with
  | Cbio_profiles => World l (social_links w) (clock w) (oid_counter w)
  | Csocial_links => World (bio_profiles w) l (clock w) (oid_counter w)
  end.

(** ** Exceptions and the handler monad *)

Inductive exn : Type :=
  | HTTPException (status_code : Z) (detail : string)
  | KeyError (key : string)
  | DuplicateKeyError
  | BulkWriteError
  | OverflowError.

Inductive outcome (A : Type) : Type :=
  | Return (a : A)
  | Raise (e : exn).
Arguments Return {A} a.
Arguments Raise {A} e.

#[global] Instance exn_eq_dec : EqDecision exn.
Proof. solve_decision. Defined.

#[global] Instance outcome_eq_dec {A} `{EqDecision A} :
  EqDecision (outcome A).
Proof. solve_decision. Defined.

#[global] Instance world_eq_dec : EqDecision world.
Proof. solve_decision. Defined.

Definition M (A : Type) : Type := world -> outcome A * world.

Definition ret {A} (a : A) : M A := fun w => (Return a, w).

Definition raise {A} (e : exn) : M A := fun w => (Raise e, w).

Definition bind {A B} (m : M A) (k : A -> M B) : M B :=
  fun w =>
    match m w with
    | (Return a, w') => k a w'
    | (Raise e, w') => (Raise e, w')
    end.

Notation "'let*' x ':=' m 'in' k" := (bind m (fun x => k))
  (at level 10, x pattern, m at level 100, k at level 200).

Notation "'do*' m 'in' k" := (bind m (fun _ => k))
  (at level 10, m at level 100, k at level 200).

(** ** Pure collection operations *)

(** The equality filter [{"_id": v}]. *)
Definition has_id (v : value) (d : doc) : Prop := d !! "_id" = Some v.

#[global] Instance has_id_dec v d : Decision (has_id v d).
Proof. unfold has_id. apply _. Defined.

(** [find_one()] without a filter: the first document in natural order. *)
Definition first_doc (c : list doc) : option doc := head c.

(** [find_one({"_id": v})]: the first matching document. *)
Definition find_by_id (v : value) (c : list doc) : option doc :=
  snd <$> list_find (has_id v) c.

(** [update_one({"_id": v}, {"$set": data})]: the fields of [data] are
    written over those of the first matching document. *)
Definition set_fields (v : value) (data : doc) (c : list doc) : list doc :=
  match list_find (has_id v) c with
  | Some (i, d) => <[ i := data ∪ d ]> c
  | None => c
  end.

(** [delete_one({"_id": v})]: the remaining documents and [deleted_count]. *)
Definition remove_by_id (v : value) (c : list doc) : list doc * Z :=
  match list_find (has_id v) c with
  | Some (i, _) => (delete i c, 1)
  | None => (c, 0)
  end.

(** ** BSON encoding *)

(** BSON integers have at most 8 bytes: the driver encodes an [int] in
    [-2^63, 2^63 - 1] and raises [OverflowError] on any other. *)
Definition int64_min : Z := - 2 ^ 63.
Definition int64_max : Z := 2 ^ 63 - 1.

Definition fits_int64 (z : Z) : bool :=
  ((int64_min <=? z) && (z <=? int64_max))%Z.

Definition encodable_value (v : value) : bool :=
  match v with
  | VInt z => fits_int64 z
  | _ => true
  end.

(** The document can be encoded: every value of it can. *)
Definition encodable (d : doc) : bool :=
  bool_decide (map_Forall (fun _ v => encodable_value v = true) d).

(** An optional [int] of a request body fits. *)
Definition fits_int64_opt (o : option Z) : bool :=
  match o with
  | Some z => fits_int64 z
  | None => true
  end.

(** The driver encodes what it sends before it sends it. *)
Definition encode (d : doc) : M unit :=
  fun w => if encodable d then (Return tt, w) else (Raise OverflowError, w).

Fixpoint encode_all (ds : list doc) : M unit :=
  match ds with
  | [] => ret tt
  | d :: ds' => do* encode d in encode_all ds'
  end.

(** ** Sorting on a field, in BSON comparison order *)

(** Numbers < strings < ObjectId < dates, null below them all. *)
Definition bson_rank (v : value) : Z :=
  match v with
  | VNull => 0
  | VInt _ => 1
  | VStr _ => 2
  | VOid _ => 3
  | VDate _ => 4
  end.

Definition bson_leb (a b : value) : bool :=
  match a, b with
  | VInt x, VInt y => (x <=? y)%Z
  | VStr x, VStr y => String.leb x y
  | VOid x, VOid y => (x <=? y)%N
  | VDate x, VDate y => (x <=? y)%Z
  | _, _ => (bson_rank a <=? bson_rank b)%Z
  end.

(** The sort key of a document: a missing field sorts as null. *)
Definition sort_key (field : string) (d : doc) : value :=
  default VNull (d !! field).

Definition key_leb (field : string) (d1 d2 : doc) : bool :=
  bson_leb (sort_key field d1) (sort_key field d2).

(** Stable insertion: [d] goes before the first document that is not
    below it, so documents with equal keys keep their natural order. *)
Fixpoint insert_by (field : string) (d : doc) (l : list doc) : list doc :=
  match l with
  | [] => [d]
  | x :: l' =>
      if key_leb field d x then d :: l else x :: insert_by field d l'
  end.

(** [.sort(field, 1)] *)
Definition sort_by (field : string) (l : list doc) : list doc :=
  foldr (insert_by field) [] l.

(** ** The handlers *)

Section Service.

(** [bson.ObjectId(s)] on a string: [None] stands for [InvalidId]. *)
Variable ObjectId_of_str : string -> option ObjectId.
(** [str(oid)] and [str(dt)]. *)
Variable str_of_ObjectId : ObjectId -> string.
Variable str_of_datetime : datetime -> string.
(** The reading of the [n]-th call of [datetime.utcnow()] and the [n]-th
    ObjectId the driver generates. *)
Variable utcnow_at : nat -> datetime.
Variable ObjectId_at : nat -> ObjectId.

(** *** Python helpers *)

Definition py_str (v : value) : string :=
  match v with
  | VNull => "None"
  | VInt z => pretty z
  | VStr s => s
  | VOid o => str_of_ObjectId o
  | VDate t => str_of_datetime t
  end.

(** Truth value of a dict: non-empty. *)
Definition truthy (d : doc) : bool := bool_decide (d ≠ ∅).

(** [not x] for an optional dict: [None] or empty. *)
Definition py_not (x : option doc) : bool :=
  match x with
  | Some d => negb (truthy d)
  | None => true
  end.

(** [d[k]] *)
Definition getitem (d : doc) (k : string) : M value :=
  match d !! k with
  | Some v => ret v
  | None => raise (KeyError k)
  end.

(** [convert_object_id] on a dict.  On [None] the source returns [None];
    callers that hold an optional document map this function over it. *)
Definition convert_object_id (d : doc) : doc :=
  match d !! "_id" with
  | Some v =>
      if truthy d then delete "_id" (<[ "id" := VStr (py_str v) ]> d) else d
  | None => d
  end.

(** *** The environment and the store *)

Definition utcnow : M datetime :=
  fun w =>
    (Return (utcnow_at (clock w)),
     World (bio_profiles w) (social_links w) (S (clock w)) (oid_counter w)).

Definition new_ObjectId : M ObjectId :=
  fun w =>
    (Return (ObjectId_at (oid_counter w)),
     World (bio_profiles w) (social_links w) (clock w) (S (oid_counter w))).

Definition count_documents (c : collection) : M nat :=
  fun w => (Return (length (coll c w)), w).

Definition find_one (c : collection) : M (option doc) :=
  fun w => (Return (first_doc (coll c w)), w).

Definition find_one_by_id (c : collection) (v : value) : M (option doc) :=
  fun w => (Return (find_by_id v (coll c w)), w).

(** The driver gives a document without [_id] a new ObjectId. *)
Definition with_id (d : doc) : M (value * doc) :=
  match d !! "_id" with
  | Some v => ret (v, d)
  | None =>
      let* o := new_ObjectId in
      ret (VOid o, <[ "_id" := VOid o ]> d)
  end.

(** The server side of an insert: the unique index on [_id]. *)
Definition store_doc (c : collection) (e : exn) (vd : value * doc) : M unit :=
  fun w =>
    if decide (Exists (has_id vd.1) (coll c w))
    then (Raise e, w)
    else (Return tt, set_coll c (coll c w ++ [vd.2]) w).

(** [insert_one(d)], returning [inserted_id]: the driver adds the [_id],
    encodes the document and sends it. *)
Definition insert_one (c : collection) (d : doc) : M value :=
  let* vd := with_id d in
  do* encode vd.2 in
  do* store_doc c DuplicateKeyError vd in
  ret vd.1.

Fixpoint with_ids (ds : list doc) : M (list (value * doc)) :=
  match ds with
  | [] => ret []
  | d :: ds' =>
      let* vd := with_id d in
      let* vds := with_ids ds' in
      ret (vd :: vds)
  end.

Fixpoint store_docs (c : collection) (vds : list (value * doc)) : M unit :=
  match vds with
  | [] => ret tt
  | vd :: vds' => do* store_doc c BulkWriteError vd in store_docs c vds'
  end.

(** [insert_many(ds)], ordered: the driver adds the [_id]s and encodes
    the batch; the documents are then stored one after the other and the
    first refused one stops the batch. *)
Definition insert_many (c : collection) (ds : list doc) : M unit :=
  let* vds := with_ids ds in
  do* encode_all vds.*2 in
  store_docs c vds.

(** [update_one({"_id": v}, {"$set": data})]: the update is encoded, then
    applied. *)
Definition update_one (c : collection) (v : value) (data : doc) : M unit :=
  do* encode data in
  fun w => (Return tt, set_coll c (set_fields v data (coll c w)) w).

(** Returns [deleted_count]. *)
Definition delete_one (c : collection) (v : value) : M Z :=
  fun w =>
    let r := remove_by_id v (coll c w) in
    (Return r.2, set_coll c r.1 w).

(** [find().sort(field, 1).to_list(n)] *)
Definition find_sorted (c : collection) (field : string) (n : nat)
  : M (list doc) :=
  fun w => (Return (take n (sort_by field (coll c w))), w).

(** *** Seeding *)

Definition default_link (profile_id : value) (title url icon_type : string)
    (order : Z) (created_at : datetime) : doc :=
  {[ "profile_id" := profile_id;
     "title" := VStr title;
     "url" := VStr url;
     "icon_type" := VStr icon_type;
     "order" := VInt order;
     "created_at" := VDate created_at ]}.

Definition default_profile (created_at updated_at : datetime) : doc :=
  {[ "name" := VStr "ZwQ";
     "description" := VStr "Bio";
     "profile_image" :=
       VStr "https://i.pinimg.com/736x/1b/a1/3f/1ba13f9e183fb869f3999b954b25d949.jpg";
     "created_at" := VDate created_at;
     "updated_at" := VDate updated_at ]}.

Definition default_links (profile_id : value) (t1 t2 t3 t4 t5 : datetime)
  : list doc :=
  [ default_link profile_id "Facebook" "https://facebook.com" "facebook" 1 t1;
    default_link profile_id "Discord" "https://discord.com" "discord" 2 t2;
    default_link profile_id "Steam" "https://steamcommunity.com" "steam" 3 t3;
    default_link profile_id "GitHub" "https://github.com" "github" 4 t4;
    default_link profile_id "YouTube" "https://youtube.com" "youtube" 5 t5 ].

Definition init_default_data : M unit :=
  let* profile_count := count_documents Cbio_profiles in
  if decide (profile_count = 0%nat) then
    let* created_at := utcnow in
    let* updated_at := utcnow in
    let* profile_id :=
      insert_one Cbio_profiles (default_profile created_at updated_at) in
    let* t1 := utcnow in
    let* t2 := utcnow in
    let* t3 := utcnow in
    let* t4 := utcnow in
    let* t5 := utcnow in
    insert_many Csocial_links (default_links profile_id t1 t2 t3 t4 t5)
  else ret tt.

(** *** Routes *)

Definition get_profile : M doc :=
  let* profile := find_one Cbio_profiles in
  match profile with
  | Some p =>
      if py_not profile
      then raise (HTTPException 404 "Profile not found")
      else ret (convert_object_id p)
  | None => raise (HTTPException 404 "Profile not found")
  end.

Definition update_profile (profile_data : BioProfileCreate.t)
  : M (option doc) :=
  let* profile := find_one Cbio_profiles in
  match profile with
  | Some p =>
      if py_not profile
      then raise (HTTPException 404 "Profile not found")
      else
        let update_data := BioProfileCreate.dict profile_data in
        let* now := utcnow in
        let update_data := <[ "updated_at" := VDate now ]> update_data in
        let* id := getitem p "_id" in
        do* update_one Cbio_profiles id update_data in
        let* id := getitem p "_id" in
        let* updated_profile := find_one_by_id Cbio_profiles id in
        ret (convert_object_id <$> updated_profile)
  | None => raise (HTTPException 404 "Profile not found")
  end.

Definition get_links : M (list doc) :=
  let* links := find_sorted Csocial_links "order" 100 in
  ret (convert_object_id <$> links).

Definition create_link (link_data : SocialLinkCreate.t) : M (option doc) :=
  let* profile := find_one Cbio_profiles in
  match profile with
  | Some p =>
      if py_not profile
      then raise (HTTPException 404 "Profile not found")
      else
        let new_link := SocialLinkCreate.dict link_data in
        let* pid := getitem p "_id" in
        let new_link := <[ "profile_id" := pid ]> new_link in
        let* now := utcnow in
        let new_link := <[ "created_at" := VDate now ]> new_link in
        let* inserted_id := insert_one Csocial_links new_link in
        let* created_link := find_one_by_id Csocial_links inserted_id in
        ret (convert_object_id <$> created_link)
  | None => raise (HTTPException 404 "Profile not found")
  end.

(** [ObjectId(link_id)] inside [try ... except Exception]. *)
Definition parse_link_id (link_id : string) : M ObjectId :=
  match ObjectId_of_str link_id with
  | Some obj_id => ret obj_id
  | None => raise (HTTPException 400 "Invalid link ID")
  end.

Definition update_link (link_id : string) (link_data : SocialLinkUpdate.t)
  : M (option doc) :=
  let* obj_id := parse_link_id link_id in
  let* link := find_one_by_id Csocial_links (VOid obj_id) in
  if py_not link then raise (HTTPException 404 "Link not found")
  else
    let update_data := SocialLinkUpdate.update_data link_data in
    do* (if truthy update_data
         then update_one Csocial_links (VOid obj_id) update_data
         else ret tt) in
    let* updated_link := find_one_by_id Csocial_links (VOid obj_id) in
    ret (convert_object_id <$> updated_link).

Definition delete_link (link_id : string) : M doc :=
  let* obj_id := parse_link_id link_id in
  let* deleted_count := delete_one Csocial_links (VOid obj_id) in
  if decide (deleted_count = 0)
  then raise (HTTPException 404 "Link not found")
  else ret {[ "message" := VStr "Link deleted successfully" ]}.

End Service.

(** ** Notions used in the statements *)

Definition bson_le (a b : value) : Prop := bson_leb a b = true.

#[global] Instance bson_le_dec a b : Decision (bson_le a b).
Proof. unfold bson_le. apply _. Defined.

(** [d1] does not sort after [d2] on [field]. *)
Definition key_le (field : string) (d1 d2 : doc) : Prop :=
  key_leb field d1 d2 = true.

(** The documents of [c] whose [field] is not above [v]. *)
Definition not_above (field : string) (v : value) (c : list doc) : list doc :=
  filter (fun d => bson_le (sort_key field d) v) c.

(** The ObjectIds [ids] are pairwise distinct and none is the [_id] of a
    document of [c]. *)
Definition fresh_ids (ids : list ObjectId) (c : list doc) : Prop :=
  NoDup ids /\ Forall (fun o => ~ Exists (has_id (VOid o)) c) ids.

(** The [update_data] of [update_profile]: the three fields of the body
    and [updated_at]. *)
Definition profile_update (p : BioProfileCreate.t) (now : datetime) : doc :=
  <[ "updated_at" := VDate now ]> (BioProfileCreate.dict p).

(** The [new_link] of [create_link] as handed to [insert_one]. *)
Definition new_link_doc (l : SocialLinkCreate.t) (profile_id : value)
    (now : datetime) : doc :=
  <[ "created_at" := VDate now ]>
    (<[ "profile_id" := profile_id ]> (SocialLinkCreate.dict l)).

(** The fields a document shows for [field], one per document. *)
Definition column (field : string) (c : list doc) : list (option value) :=
  (fun d : doc => d !! field) <$> c.

(** Python's [str.lower()] on ASCII. *)
Definition lower_ascii (a : ascii) : ascii :=
  let n := N_of_ascii a in
  if ((65 <=? n) && (n <=? 90))%N then ascii_of_N (n + 32) else a.

Fixpoint lower (s : string) : string :=
  match s with
  | EmptyString => EmptyString
  | String a s' => String (lower_ascii a) (lower s')
  end.

(** ** A concrete environment, for running the handlers *)

Module Sample.

Definition hex_digit (a : ascii) : option N :=
  let n := N_of_ascii a in
  if ((48 <=? n) && (n <=? 57))%N then Some (n - 48)%N
  else if ((97 <=? n) && (n <=? 102))%N then Some (n - 87)%N
  else if ((65 <=? n) && (n <=? 70))%N then Some (n - 55)%N
  else None.

Fixpoint hex_value (acc : N) (s : string) : option N :=
  match s with
  | EmptyString => Some acc
  | String a s' =>
      match hex_digit a with
      | Some d => hex_value (16 * acc + d)%N s'
      | None => None
      end
  end.

(** 24 hexadecimal digits. *)
Definition ObjectId_of_str (s : string) : option ObjectId :=
  if decide (String.length s = 24%nat) then hex_value 0%N s else None.

Definition hex_char (d : N) : ascii :=
  ascii_of_N (if (d <? 10)%N then d + 48 else d + 87)%N.

Fixpoint hex_string (digits : nat) (n : N) (acc : string) : string :=
  match digits with
  | O => acc
  | S k => hex_string k (n / 16)%N (String (hex_char (n mod 16)%N) acc)
  end.

Definition str_of_ObjectId (o : ObjectId) : string := hex_string 24 o "".

Definition str_of_datetime (t : datetime) : string := pretty t.

(** A clock that advances by one per reading, and a generator counting
    up from [0x100]. *)
Definition utcnow_at (n : nat) : datetime := 1700000000000 + Z.of_nat n.
Definition ObjectId_at (n : nat) : ObjectId := (256 + N.of_nat n)%N.

Definition empty_world : world := World [] [] 0 0.

Definition profile0 : doc :=
  {[ "_id" := VOid 1%N;
     "name" := VStr "ZwQ";
     "description" := VStr "Bio";
     "profile_image" := VStr "https://example.org/me.jpg";
     "created_at" := VDate 1600000000000;
     "updated_at" := VDate 1600000000000 ]}.

Definition link0 (n : nat) (order : Z) : doc :=
  {[ "_id" := VOid (N.of_nat n);
     "profile_id" := VOid 1%N;
     "title" := VStr "Blog";
     "url" := VStr "https://example.org/blog";
     "icon_type" := VStr "blog";
     "order" := VInt order;
     "created_at" := VDate 1600000000000 ]}.

(** One profile and two links, stored in the order 7, 3. *)
Definition small_world : world :=
  World [profile0] [link0 10 7; link0 11 3] 0 0.

(** One profile and a hundred links, all of order 0. *)
Definition crowded_world : world :=
  World [profile0] ((fun n => link0 n 0) <$> seq 2 100) 0 0.

Definition new_link : SocialLinkCreate.t :=
  SocialLinkCreate.Build "Mastodon" "https://mastodon.social" "mastodon" 1.

(** [small_world] with its two links stored the other way round. *)
Definition swapped_world : world :=
  World [profile0] [link0 11 3; link0 10 7] 0 0.

(** The ids [link0 11] and an unused one, as path parameters. *)
Definition id11 : string := "00000000000000000000000b".
Definition id12 : string := "00000000000000000000000c".

Definition new_profile : BioProfileCreate.t :=
  BioProfileCreate.Build "Zed" "Hello" "https://example.org/zed.png".

(** The document [create_link new_link] stores on [crowded_world], and
    the world it leaves. *)
Definition crowded_new_doc : doc :=
  <[ "_id" := VOid (ObjectId_at 0) ]>
    (new_link_doc new_link (VOid 1%N) (utcnow_at 0)).

Definition crowded_after : world :=
  World [profile0] (social_links crowded_world ++ [crowded_new_doc]) 1 1.

(** What [create_link new_link] returns on [small_world], and the world
    it leaves. *)
Definition created_small : option doc * world :=
  match create_link str_of_ObjectId str_of_datetime utcnow_at ObjectId_at
          new_link small_world with
  | (Return r, w') => (r, w')
  | (Raise _, w') => (None, w')
  end.

End Sample.

(** ** Store invariants and a small program logic *)

(** Every document of the collection carries an [_id] and no two share
    one: what the server's unique index on [_id] maintains. *)
Definition coll_wf (c : list doc) : Prop :=
  Forall (fun d : doc => is_Some (d !! "_id")) c /\ NoDup (column "_id" c).

Definition store_wf (w : world) : Prop :=
  coll_wf (bio_profiles w) /\ coll_wf (social_links w).

(** [triple P m Q E]: from a world satisfying [P], the computation [m]
    either returns [a] in a world satisfying [Q a] or raises in a world
    satisfying [E]. *)
Definition triple {A} (P : world -> Prop) (m : M A)
    (Q : A -> world -> Prop) (E : world -> Prop) : Prop :=
  forall w, P w ->
    match m w with
    | (Return a, w') => Q a w'
    | (Raise _, w') => E w'
    end.

(** [m] keeps [I], whether it returns or raises. *)
Definition keeps {A} (I : world -> Prop) (m : M A) : Prop :=
  triple I m (fun _ => I) I.

(** The body that carries the fields of [later] where present and those
    of [earlier] elsewhere. *)
Definition merge_update (later earlier : SocialLinkUpdate.t)
  : SocialLinkUpdate.t :=
  SocialLinkUpdate.Build
    (match SocialLinkUpdate.title later with
     | Some s => Some s
     | None => SocialLinkUpdate.title earlier
     end)
    (match SocialLinkUpdate.url later with
     | Some s => Some s
     | None => SocialLinkUpdate.url earlier
     end)
    (match SocialLinkUpdate.icon_type later with
     | Some s => Some s
     | None => SocialLinkUpdate.icon_type earlier
     end)
    (match SocialLinkUpdate.order later with
     | Some z => Some z
     | None => SocialLinkUpdate.order earlier
     end).

(** The world with the clock read once more. *)
Definition tick (w : world) : world :=
  World (bio_profiles w) (social_links w) (S (clock w)) (oid_counter w).

(** ** The lazy connection of [api/index.py] *)

Module Lazy.
Section Connection.

(** The client object and [AsyncIOMotorClient(url)]; [None] stands for the
    constructor raising. *)
Variable Client : Type.
Variable AsyncIOMotorClient : string -> option Client.

(** The name check of [client[db_name]]: a refused name raises
    [InvalidName]. *)
Variable valid_db_name : string -> bool.

(** [client[db_name]] *)
Definition Database : Type := Client * string.

(** The module globals [client] and [db]. *)
Record globals : Type := Globals
  { client : option Client; db : option Database }.

Inductive error : Type :=
  | KeyError (key : string)
  | ClientError
  | InvalidName.

(** [get_db()], given [os.environ]: the returned [db] and the globals.
    [not client] holds for [None] only (a client object is truthy), and
    [os.environ[k]] raises [KeyError] on a missing [k].  The global
    [client] is bound before [client[db_name]] is evaluated. *)
Definition get_db (environ : gmap string string) (g : globals)
  : (error + option Database) * globals :=
  match client g with
  | Some _ => (inr (db g), g)
  | None =>
      match environ !! "MONGO_URL" with
      | None => (inl (KeyError "MONGO_URL"), g)
      | Some mongo_url =>
          match environ !! "DB_NAME" with
          | None => (inl (KeyError "DB_NAME"), g)
          | Some db_name =>
              match AsyncIOMotorClient mongo_url with
              | None => (inl ClientError, g)
              | Some c =>
                  let g1 := Globals (Some c) (db g) in
                  if valid_db_name db_name then
                    let g2 := Globals (Some c) (Some (c, db_name)) in
                    (inr (db g2), g2)
                  else (inl InvalidName, g1)
              end
          end
      end
  end.

End Connection.
End Lazy.

(** ** More concrete data *)

Module Demo.

Definition patch_title : SocialLinkUpdate.t :=
  SocialLinkUpdate.Build (Some "Notes") None None None.

Definition patch_order : SocialLinkUpdate.t :=
  SocialLinkUpdate.Build None None None (Some 9).

Definition other_profile : BioProfileCreate.t :=
  BioProfileCreate.Build "Yan" "Hi" "https://example.org/yan.png".

(** A client is the URL it was built with; every URL is accepted. *)
Definition connect (url : string) : option string := Some url.

Definition environ : gmap string string :=
  {[ "MONGO_URL" := "mongodb://localhost:27017"; "DB_NAME" := "bio" ]}.

Definition no_globals : Lazy.globals string := Lazy.Globals string None None.

(** The name check of pymongo: not empty, and none of space, dot, dollar,
    slash, backslash, NUL and the double quote. *)
Definition refused_char (a : ascii) : bool :=
  bool_decide (N_of_ascii a ∈ [32; 46; 36; 47; 92; 0; 34]%N).

Fixpoint no_refused_char (s : string) : bool :=
  match s with
  | EmptyString => true
  | String a s' => negb (refused_char a) && no_refused_char s'
  end.

Definition valid_db_name (s : string) : bool :=
  negb (bool_decide (s = "")) && no_refused_char s.

Definition environ_no_name : gmap string string :=
  {[ "MONGO_URL" := "mongodb://localhost:27017"; "DB_NAME" := "" ]}.

(** A body whose [order] is one above the largest BSON integer. *)
Definition patch_big_order : SocialLinkUpdate.t :=
  SocialLinkUpdate.Build None None None (Some (2 ^ 63)).

Definition big_link : SocialLinkCreate.t :=
  SocialLinkCreate.Build "Mastodon" "https://mastodon.social" "mastodon"
    (2 ^ 63).

End Demo.


(** * Properties *)

(** ** Finite-map and list facts *)

Lemma truthy_has_field (d : doc) (k : string) (v : value) :
  d !! k = Some v -> d <> ∅.
Proof. intros H ->. by rewrite lookup_empty in H. Qed.

Lemma list_find_first {A} (P : A -> Prop) `{!forall x, Decision (P x)}
    (l1 : list A) (x : A) (l2 : list A) :
  P x -> Forall (fun y => ~ P y) l1 ->
  list_find P (l1 ++ x :: l2) = Some (length l1, x).
Proof.
  intros Hx Hl1. apply list_find_Some. split_and!.
  - by rewrite list_lookup_middle.
  - done.
  - intros j y Hj Hlt. rewrite lookup_app_l in Hj by done.
    eapply Forall_lookup_1 in Hl1; eauto.
Qed.

Lemma list_find_split {A} (P : A -> Prop) `{!forall x, Decision (P x)}
    (l : list A) (i : nat) (x : A) :
  list_find P l = Some (i, x) ->
  exists l1 l2, l = l1 ++ x :: l2 /\ length l1 = i /\ P x /\
                Forall (fun y => ~ P y) l1.
Proof.
  intros (Hi & Hx & Hlt)%list_find_Some.
  exists (take i l), (drop (S i) l). split_and!.
  - by rewrite take_drop_middle.
  - apply length_take_le. apply lookup_lt_Some in Hi. lia.
  - done.
  - apply Forall_lookup. intros j y Hj.
    apply lookup_take_Some in Hj as [Hj ?]. eauto.
Qed.

Lemma find_by_id_split (v : value) (c : list doc) (d : doc) :
  find_by_id v c = Some d ->
  exists l1 l2, c = l1 ++ d :: l2 /\ has_id v d /\
                Forall (fun y => ~ has_id v y) l1.
Proof.
  unfold find_by_id. intros Hf.
  destruct (list_find (has_id v) c) as [[i x]|] eqn:E; simplify_eq/=.
  apply list_find_split in E as (l1 & l2 & ? & ? & ? & ?). eauto 6.
Qed.

Lemma find_by_id_first (v : value) (l1 : list doc) (d : doc) (l2 : list doc) :
  has_id v d -> Forall (fun y => ~ has_id v y) l1 ->
  find_by_id v (l1 ++ d :: l2) = Some d.
Proof.
  intros. unfold find_by_id. by rewrite list_find_first.
Qed.

Lemma find_by_id_None (v : value) (c : list doc) :
  ~ Exists (has_id v) c -> find_by_id v c = None.
Proof.
  intros H. unfold find_by_id.
  assert (list_find (has_id v) c = None) as ->; [|done].
  apply list_find_None. by apply not_Exists_Forall; [intros; apply _|].
Qed.

Lemma set_fields_first (v : value) (data : doc)
    (l1 : list doc) (d : doc) (l2 : list doc) :
  has_id v d -> Forall (fun y => ~ has_id v y) l1 ->
  set_fields v data (l1 ++ d :: l2) = l1 ++ (data ∪ d) :: l2.
Proof.
  intros. unfold set_fields. rewrite list_find_first by done.
  by rewrite insert_app_r_alt, Nat.sub_diag by done.
Qed.

Lemma remove_by_id_first (v : value)
    (l1 : list doc) (d : doc) (l2 : list doc) :
  has_id v d -> Forall (fun y => ~ has_id v y) l1 ->
  remove_by_id v (l1 ++ d :: l2) = (l1 ++ l2, 1).
Proof.
  intros. unfold remove_by_id. rewrite list_find_first by done.
  by rewrite delete_middle.
Qed.

Lemma remove_by_id_None (v : value) (c : list doc) :
  ~ Exists (has_id v) c -> remove_by_id v c = (c, 0).
Proof.
  intros H. unfold remove_by_id.
  assert (list_find (has_id v) c = None) as ->; [|done].
  apply list_find_None. by apply not_Exists_Forall; [intros; apply _|].
Qed.

(** ** The fields an update writes *)

Section UpdateData.
Import SocialLinkUpdate.

Lemma opt_str_lookup (o : option string) :
  (guard (opt_str o <> VNull);; Some (opt_str o)) = VStr <$> o.
Proof.
  destruct o; cbn [opt_str opt_int fmap option_fmap option_map].
  - by rewrite option_guard_True.
  - by rewrite option_guard_False by (intros H; by apply H).
Qed.

Lemma opt_int_lookup (o : option Z) :
  (guard (opt_int o <> VNull);; Some (opt_int o)) = VInt <$> o.
Proof.
  destruct o; cbn [opt_str opt_int fmap option_fmap option_map].
  - by rewrite option_guard_True.
  - by rewrite option_guard_False by (intros H; by apply H).
Qed.

Lemma update_data_title l : update_data l !! "title" = VStr <$> title l.
Proof.
  unfold update_data, dict. rewrite map_lookup_filter.
  rewrite lookup_insert_eq. apply opt_str_lookup.
Qed.

Lemma update_data_url l : update_data l !! "url" = VStr <$> url l.
Proof.
  unfold update_data, dict. rewrite map_lookup_filter.
  rewrite lookup_insert_ne, lookup_insert_eq by done. apply opt_str_lookup.
Qed.

Lemma update_data_icon_type l :
  update_data l !! "icon_type" = VStr <$> icon_type l.
Proof.
  unfold update_data, dict. rewrite map_lookup_filter.
  rewrite !lookup_insert_ne, lookup_insert_eq by done. apply opt_str_lookup.
Qed.

Lemma update_data_order l : update_data l !! "order" = VInt <$> order l.
Proof.
  unfold update_data, dict. rewrite map_lookup_filter.
  rewrite !lookup_insert_ne, lookup_singleton_eq by done.
  apply opt_int_lookup.
Qed.

Lemma update_data_other l (k : string) :
  k <> "title" -> k <> "url" -> k <> "icon_type" -> k <> "order" ->
  update_data l !! k = None.
Proof.
  intros. unfold update_data, dict. rewrite map_lookup_filter.
  by rewrite !lookup_insert_ne, lookup_singleton_ne by done.
Qed.

Lemma update_data_empty : update_data (Build None None None None) = ∅.
Proof.
  apply map_empty. intros k.
  destruct (decide (k = "title")) as [->|]; [by rewrite update_data_title|].
  destruct (decide (k = "url")) as [->|]; [by rewrite update_data_url|].
  destruct (decide (k = "icon_type")) as [->|];
    [by rewrite update_data_icon_type|].
  destruct (decide (k = "order")) as [->|]; [by rewrite update_data_order|].
  by apply update_data_other.
Qed.
End UpdateData.

(** ** The BSON order and the sort *)

Lemma string_compare_trans (s1 s2 s3 : string) :
  String.compare s1 s2 <> Gt -> String.compare s2 s3 <> Gt ->
  String.compare s1 s3 <> Gt.
Proof.
  revert s2 s3. induction s1 as [|a s1 IH]; intros [|b s2] [|c s3];
    cbn [String.compare]; try done.
  unfold Ascii.compare.
  destruct (N.compare_spec (N_of_ascii a) (N_of_ascii b)) as [Hab|Hab|Hab];
    [|intros _|done].
  - rewrite Hab.
    destruct (N.compare_spec (N_of_ascii b) (N_of_ascii c)); eauto.
  - destruct (N.compare_spec (N_of_ascii b) (N_of_ascii c)) as [Hbc|Hbc|Hbc];
      [intros _|intros _|done].
    + rewrite <- Hbc. by apply N.compare_lt_iff in Hab as ->.
    + assert (N_of_ascii a < N_of_ascii c)%N as Hac by lia.
      by apply N.compare_lt_iff in Hac as ->.
Qed.

Lemma string_leb_trans (s1 s2 s3 : string) :
  String.leb s1 s2 = true -> String.leb s2 s3 = true ->
  String.leb s1 s3 = true.
Proof.
  unfold String.leb. intros H12 H23.
  pose proof (string_compare_trans s1 s2 s3) as H.
  destruct (String.compare s1 s2), (String.compare s2 s3),
    (String.compare s1 s3); try done; by destruct H.
Qed.

#[global] Instance bson_le_total : Total bson_le.
Proof.
  intros [|x|x|x|x] [|y|y|y|y]; unfold bson_le; cbn;
    try (by left); try (by right).
  - destruct (Z.le_ge_cases x y); [left|right]; by apply Z.leb_le.
  - apply String.leb_total.
  - destruct (N.le_ge_cases x y); [left|right]; by apply N.leb_le.
  - destruct (Z.le_ge_cases x y); [left|right]; by apply Z.leb_le.
Qed.

#[global] Instance bson_le_trans : Transitive bson_le.
Proof.
  intros [|x|x|x|x] [|y|y|y|y] [|z|z|z|z]; unfold bson_le; cbn;
    try done.
  - rewrite !Z.leb_le. lia.
  - apply string_leb_trans.
  - rewrite !N.leb_le. lia.
  - rewrite !Z.leb_le. lia.
Qed.

#[global] Instance bson_le_antisym : AntiSymm (=) bson_le.
Proof.
  intros [|x|x|x|x] [|y|y|y|y]; unfold bson_le; cbn; try done.
  - rewrite !Z.leb_le. intros. f_equal. lia.
  - intros. f_equal. by apply String.leb_antisym.
  - rewrite !N.leb_le. intros. f_equal. lia.
  - rewrite !Z.leb_le. intros. f_equal. lia.
Qed.

#[global] Instance key_le_total field : Total (key_le field).
Proof. intros d1 d2. apply bson_le_total. Qed.

#[global] Instance key_le_trans field : Transitive (key_le field).
Proof. intros d1 d2 d3. apply bson_le_trans. Qed.

Lemma insert_by_Permutation (field : string) (d : doc) (l : list doc) :
  insert_by field d l ≡ₚ d :: l.
Proof.
  induction l as [|x l IH]; cbn [insert_by]; [done|].
  destruct (key_leb field d x); [done|].
  rewrite IH. apply Permutation_swap.
Qed.

Lemma sort_by_Permutation (field : string) (l : list doc) :
  sort_by field l ≡ₚ l.
Proof.
  induction l as [|x l IH]; cbn; [done|].
  fold (sort_by field l). by rewrite insert_by_Permutation, IH.
Qed.

Lemma insert_by_sorted (field : string) (d : doc) (l : list doc) :
  StronglySorted (key_le field) l ->
  StronglySorted (key_le field) (insert_by field d l).
Proof.
  induction 1 as [|x l Hl IH Hx]; cbn [insert_by].
  { repeat constructor. }
  destruct (key_leb field d x) eqn:E.
  - constructor; [by constructor|].
    constructor; [done|].
    eapply Forall_impl; [exact Hx|]. intros y Hy. by trans x.
  - constructor; [done|].
    rewrite insert_by_Permutation. constructor; [|done].
    destruct (total (key_le field) x d) as [|Hdx]; [done|].
    unfold key_le in Hdx. congruence.
Qed.

Lemma sort_by_sorted (field : string) (l : list doc) :
  StronglySorted (key_le field) (sort_by field l).
Proof.
  induction l as [|x l IH]; cbn; [constructor|].
  by apply insert_by_sorted.
Qed.

(** The keys of the sorted collection do not depend on the order the
    documents were stored in. *)
Lemma sort_by_keys_Permutation (field : string) (l l' : list doc) :
  l ≡ₚ l' ->
  sort_key field <$> sort_by field l = sort_key field <$> sort_by field l'.
Proof.
  intros Hp. apply (StronglySorted_unique bson_le).
  - apply (StronglySorted_fmap _ (key_le field)); [done|apply sort_by_sorted].
  - apply (StronglySorted_fmap _ (key_le field)); [done|apply sort_by_sorted].
  - by rewrite !sort_by_Permutation, Hp.
Qed.

(** Two documents at positions [i < j] of a sorted list are in order. *)
Lemma StronglySorted_lookup_lt {A} (R : relation A) (l : list A)
    (i j : nat) (x y : A) :
  StronglySorted R l -> l !! i = Some x -> l !! j = Some y -> (i < j)%nat ->
  R x y.
Proof.
  intros Hs. revert i j. induction Hs as [|a l Hl IH Ha]; intros i j Hi Hj Hij.
  { by rewrite lookup_nil in Hi. }
  destruct j as [|j]; [lia|]. cbn in Hj.
  destruct i as [|i]; cbn in Hi.
  - simplify_eq. eapply Forall_lookup_1 in Ha; eauto.
  - eapply IH; eauto. lia.
Qed.

Lemma filter_all {A} (P : A -> Prop) `{!forall x, Decision (P x)}
    (l : list A) :
  Forall P l -> filter P l = l.
Proof.
  induction 1 as [|x l Hx Hl IH]; [done|].
  by rewrite filter_cons_True, IH.
Qed.

(** A document appended to a collection shows among the first [n] sorted
    documents when fewer than [n] stored documents are not above it. *)
Lemma appended_in_first (field : string) (n : nat) (c : list doc) (d : doc) :
  (length (not_above field (sort_key field d) c) < n)%nat ->
  d ∈ take n (sort_by field (c ++ [d])).
Proof.
  intros Hn.
  pose proof (sort_by_sorted field (c ++ [d])) as Hs.
  pose proof (sort_by_Permutation field (c ++ [d])) as Hp.
  assert (d ∈ sort_by field (c ++ [d])) as Hin.
  { rewrite Hp. set_solver. }
  apply list_elem_of_split in Hin as (s1 & s2 & Hsplit).
  rewrite Hsplit in Hs, Hp |- *.
  assert (c ≡ₚ s1 ++ s2) as Hc.
  { apply (Permutation_cons_inv (a := d)).
    rewrite Permutation_middle, Hp. apply (Permutation_app_comm [d] c). }
  apply StronglySorted_app in Hs as (Hle & _ & _).
  assert (filter (fun x => bson_le (sort_key field x) (sort_key field d)) s1
          = s1) as Hs1.
  { apply filter_all, Forall_forall. intros x Hx. apply (Hle x d); set_solver. }
  assert (length s1 < n)%nat as Hlt.
  { unfold not_above in Hn. rewrite Hc, filter_app, Hs1, length_app in Hn.
    lia. }
  apply elem_of_take. exists (length s1). split; [|done].
  by rewrite list_lookup_middle.
Qed.


(** ** Encoding *)

Lemma encodable_true (d : doc) :
  encodable d = true
  <-> forall (k : string) (v : value),
        d !! k = Some v -> encodable_value v = true.
Proof. unfold encodable. by rewrite bool_decide_eq_true. Qed.

Lemma encodable_false (d : doc) (k : string) (v : value) :
  d !! k = Some v -> encodable_value v = false -> encodable d = false.
Proof.
  intros Hk Hv. destruct (encodable d) eqn:E; [|done].
  rewrite encodable_true in E. specialize (E k v Hk). congruence.
Qed.

Lemma encodable_empty : encodable ∅ = true.
Proof. apply encodable_true. intros k v. by rewrite lookup_empty. Qed.

Lemma encodable_insert (k : string) (v : value) (d : doc) :
  encodable_value v = true -> encodable d = true ->
  encodable (<[ k := v ]> d) = true.
Proof.
  rewrite !encodable_true. intros Hv Hd k' v' Hk'.
  destruct (decide (k = k')) as [->|].
  - rewrite lookup_insert_eq in Hk'. by simplify_eq.
  - rewrite lookup_insert_ne in Hk' by done. eauto.
Qed.

Lemma update_data_encodable (l : SocialLinkUpdate.t) :
  encodable (SocialLinkUpdate.update_data l)
  = fits_int64_opt (SocialLinkUpdate.order l).
Proof.
  destruct (fits_int64_opt (SocialLinkUpdate.order l)) eqn:Hfit.
  - apply encodable_true. intros k v Hk.
    destruct (decide (k = "title")) as [->|].
    { rewrite update_data_title in Hk.
      by destruct (SocialLinkUpdate.title l); simplify_eq/=. }
    destruct (decide (k = "url")) as [->|].
    { rewrite update_data_url in Hk.
      by destruct (SocialLinkUpdate.url l); simplify_eq/=. }
    destruct (decide (k = "icon_type")) as [->|].
    { rewrite update_data_icon_type in Hk.
      by destruct (SocialLinkUpdate.icon_type l); simplify_eq/=. }
    destruct (decide (k = "order")) as [->|].
    { rewrite update_data_order in Hk.
      by destruct (SocialLinkUpdate.order l); simplify_eq/=. }
    by rewrite update_data_other in Hk.
  - destruct (SocialLinkUpdate.order l) as [z|] eqn:Ho; [|done].
    apply (encodable_false _ "order" (VInt z)); [|done].
    by rewrite update_data_order, Ho.
Qed.

Lemma profile_update_encodable (pd : BioProfileCreate.t) (now : datetime) :
  encodable (profile_update pd now) = true.
Proof.
  unfold profile_update, BioProfileCreate.dict.
  repeat (apply encodable_insert; [done|]).
  apply encodable_empty.
Qed.

Lemma new_link_doc_encodable (l : SocialLinkCreate.t) (pid : value)
    (now : datetime) (o : ObjectId) :
  encodable_value pid = true ->
  encodable (<[ "_id" := VOid o ]> (new_link_doc l pid now))
  = fits_int64 (SocialLinkCreate.order l).
Proof.
  intros Hpid. destruct (fits_int64 (SocialLinkCreate.order l)) eqn:Hfit.
  - unfold new_link_doc, SocialLinkCreate.dict.
    repeat (apply encodable_insert; [done|]).
    apply encodable_empty.
  - apply (encodable_false _ "order" (VInt (SocialLinkCreate.order l)));
      [|done].
    unfold new_link_doc, SocialLinkCreate.dict.
    by rewrite !lookup_insert_ne, lookup_singleton_eq by done.
Qed.

Lemma encode_all_world (ds : list doc) (w : world) :
  (encode_all ds w).2 = w.
Proof.
  induction ds as [|d ds IH]; [done|].
  cbn [encode_all]. unfold bind, encode at 1.
  destruct (encodable d); [|done]. exact IH.
Qed.

Lemma encode_all_ok (ds : list doc) (w : world) :
  Forall (fun d => encodable d = true) ds ->
  encode_all ds w = (Return tt, w).
Proof.
  induction 1 as [|d ds Hd Hds IH]; [done|].
  cbn [encode_all]. unfold bind, encode at 1. by rewrite Hd.
Qed.

Lemma update_one_run (c : collection) (v : value) (data : doc) (w : world) :
  update_one c v data w
  = if encodable data
    then (Return tt, set_coll c (set_fields v data (coll c w)) w)
    else (Raise OverflowError, w).
Proof. unfold update_one, bind, encode. by destruct (encodable data). Qed.

(** ** The routes *)

Section Routes.
Variable ObjectId_of_str : string -> option ObjectId.
Variable str_of_ObjectId : ObjectId -> string.
Variable str_of_datetime : datetime -> string.
Variable utcnow_at : nat -> datetime.
Variable ObjectId_at : nat -> ObjectId.

Local Abbreviation py_str := (py_str str_of_ObjectId str_of_datetime).
Local Abbreviation convert_object_id :=
  (convert_object_id str_of_ObjectId str_of_datetime).
Local Abbreviation get_links := (get_links str_of_ObjectId str_of_datetime).
Local Abbreviation update_profile :=
  (update_profile str_of_ObjectId str_of_datetime utcnow_at).
Local Abbreviation create_link :=
  (create_link str_of_ObjectId str_of_datetime utcnow_at ObjectId_at).
Local Abbreviation update_link :=
  (update_link ObjectId_of_str str_of_ObjectId str_of_datetime).
Local Abbreviation delete_link := (delete_link ObjectId_of_str).
Local Abbreviation init_default_data := (init_default_data utcnow_at ObjectId_at).

(** *** [convert_object_id] *)

Lemma convert_lookup_other (d : doc) (k : string) :
  k <> "id" -> k <> "_id" -> convert_object_id d !! k = d !! k.
Proof.
  intros. unfold convert_object_id.
  destruct (d !! "_id"); [|done]. destruct (truthy d); [|done].
  by rewrite lookup_delete_ne, lookup_insert_ne.
Qed.

Lemma convert_lookup_id (d : doc) (v : value) :
  d !! "_id" = Some v -> convert_object_id d !! "id" = Some (VStr (py_str v)).
Proof.
  intros Hv. unfold convert_object_id. rewrite Hv.
  unfold truthy. rewrite bool_decide_eq_true_2
    by eauto using truthy_has_field.
  by rewrite lookup_delete_ne, lookup_insert_eq.
Qed.

Lemma convert_lookup__id (d : doc) : convert_object_id d !! "_id" = None.
Proof.
  unfold convert_object_id. destruct (d !! "_id") eqn:E; [|done].
  destruct (truthy d) eqn:T.
  - by rewrite lookup_delete_eq.
  - apply bool_decide_eq_false, dec_stable in T. subst d.
    by rewrite lookup_empty in E.
Qed.

(** *** Running the monad *)

Lemma same_world (w : world) :
  World (bio_profiles w) (social_links w) (clock w) (oid_counter w) = w.
Proof. by destruct w. Qed.

Lemma py_not_found (v : value) (c : list doc) (d : doc) :
  find_by_id v c = Some d -> py_not (Some d) = false.
Proof.
  intros (l1 & l2 & _ & Hd & _)%find_by_id_split.
  unfold py_not, truthy. rewrite bool_decide_eq_true_2; [done|].
  eauto using truthy_has_field.
Qed.

(** *** [create_link] without a profile *)

(** C6: with no Profile document in the store, [create_link] raises
    404 "Profile not found" and the whole world (both collections, the
    clock and the ObjectId generator) is as it was: no Link is inserted. *)
Theorem create_link_without_profile
    (link_data : SocialLinkCreate.t) (w : world) :
  bio_profiles w = [] ->
  create_link link_data w
  = (Raise (HTTPException 404 "Profile not found"), w).
Proof.
  intros Hp. unfold create_link, bind, find_one, raise.
  cbn [coll]. by rewrite Hp.
Qed.

(** *** [delete_link] *)

(** C5: [delete_link] raises 400 when the id string does not parse as an
    ObjectId and 404 when it parses but no Link carries that [_id]; in
    both cases the world is untouched, and the two exceptions differ.
    When a Link carries the [_id], the first such document is removed,
    everything else stays, and the body is [{"message": ...}]. *)
Theorem delete_link_outcomes (link_id : string) (w : world) :
  (ObjectId_of_str link_id = None ->
   delete_link link_id w = (Raise (HTTPException 400 "Invalid link ID"), w))
  /\ (forall obj_id,
        ObjectId_of_str link_id = Some obj_id ->
        ~ Exists (has_id (VOid obj_id)) (social_links w) ->
        delete_link link_id w
        = (Raise (HTTPException 404 "Link not found"), w))
  /\ (forall obj_id d,
        ObjectId_of_str link_id = Some obj_id ->
        find_by_id (VOid obj_id) (social_links w) = Some d ->
        exists l1 l2,
          social_links w = l1 ++ d :: l2
          /\ Forall (fun y => ~ has_id (VOid obj_id) y) l1
          /\ delete_link link_id w
             = (Return {[ "message" := VStr "Link deleted successfully" ]},
                World (bio_profiles w) (l1 ++ l2) (clock w) (oid_counter w)))
  /\ (forall detail1 detail2,
        HTTPException 400 detail1 <> HTTPException 404 detail2).
Proof.
  split_and!.
  - intros Hp. unfold delete_link, bind, parse_link_id. by rewrite Hp.
  - intros obj_id Hp Hno.
    unfold delete_link, bind, parse_link_id, delete_one. rewrite Hp.
    cbn [ret coll set_coll]. rewrite remove_by_id_None by done.
    cbn [fst snd]. rewrite decide_True by done.
    unfold raise. by rewrite same_world.
  - intros obj_id d Hp (l1 & l2 & Hl & Hd & Hl1)%find_by_id_split.
    exists l1, l2. split_and!; [done..|].
    unfold delete_link, bind, parse_link_id, delete_one. rewrite Hp.
    cbn [ret coll set_coll]. rewrite Hl, remove_by_id_first by done.
    cbn [fst snd]. by rewrite decide_False by done.
  - intros ?? [=].
Qed.

(** *** [update_link] *)

Lemma merged_title (l : SocialLinkUpdate.t) (d : doc) :
  (SocialLinkUpdate.update_data l ∪ d) !! "title"
  = match SocialLinkUpdate.title l with
    | Some s => Some (VStr s)
    | None => d !! "title"
    end.
Proof.
  rewrite lookup_union, update_data_title.
  by destruct (SocialLinkUpdate.title l), (d !! "title").
Qed.

Lemma merged_url (l : SocialLinkUpdate.t) (d : doc) :
  (SocialLinkUpdate.update_data l ∪ d) !! "url"
  = match SocialLinkUpdate.url l with
    | Some s => Some (VStr s)
    | None => d !! "url"
    end.
Proof.
  rewrite lookup_union, update_data_url.
  by destruct (SocialLinkUpdate.url l), (d !! "url").
Qed.

Lemma merged_icon_type (l : SocialLinkUpdate.t) (d : doc) :
  (SocialLinkUpdate.update_data l ∪ d) !! "icon_type"
  = match SocialLinkUpdate.icon_type l with
    | Some s => Some (VStr s)
    | None => d !! "icon_type"
    end.
Proof.
  rewrite lookup_union, update_data_icon_type.
  by destruct (SocialLinkUpdate.icon_type l), (d !! "icon_type").
Qed.

Lemma merged_order (l : SocialLinkUpdate.t) (d : doc) :
  (SocialLinkUpdate.update_data l ∪ d) !! "order"
  = match SocialLinkUpdate.order l with
    | Some z => Some (VInt z)
    | None => d !! "order"
    end.
Proof.
  rewrite lookup_union, update_data_order.
  by destruct (SocialLinkUpdate.order l), (d !! "order").
Qed.

Lemma merged_other (l : SocialLinkUpdate.t) (d : doc) (k : string) :
  k <> "title" -> k <> "url" -> k <> "icon_type" -> k <> "order" ->
  (SocialLinkUpdate.update_data l ∪ d) !! k = d !! k.
Proof. intros. by rewrite lookup_union_r by by apply update_data_other. Qed.

Lemma merged_only_order (z : Z) (d : doc) :
  SocialLinkUpdate.update_data
    (SocialLinkUpdate.Build None None None (Some z)) ∪ d
  = <[ "order" := VInt z ]> d.
Proof.
  apply map_eq. intros k.
  destruct (decide (k = "order")) as [->|].
  { by rewrite merged_order, lookup_insert_eq. }
  rewrite lookup_insert_ne by done.
  destruct (decide (k = "title")) as [->|]; [by rewrite merged_title|].
  destruct (decide (k = "url")) as [->|]; [by rewrite merged_url|].
  destruct (decide (k = "icon_type")) as [->|];
    [by rewrite merged_icon_type|].
  by apply merged_other.
Qed.

(** What a run of [update_link] on an existing Link does: the first
    document carrying the [_id] receives the non-null fields, unless the
    [order] of the body cannot be encoded. *)
Lemma update_link_run (link_id : string) (obj_id : ObjectId)
    (link_data : SocialLinkUpdate.t) (w : world)
    (l1 : list doc) (d : doc) (l2 : list doc) :
  ObjectId_of_str link_id = Some obj_id ->
  social_links w = l1 ++ d :: l2 ->
  has_id (VOid obj_id) d ->
  Forall (fun y => ~ has_id (VOid obj_id) y) l1 ->
  fits_int64_opt (SocialLinkUpdate.order link_data) = true ->
  update_link link_id link_data w
  = (Return (Some (convert_object_id
                     (SocialLinkUpdate.update_data link_data ∪ d))),
     World (bio_profiles w)
           (l1 ++ (SocialLinkUpdate.update_data link_data ∪ d) :: l2)
           (clock w) (oid_counter w)).
Proof.
  intros Hp Hl Hd Hl1 Hfit.
  assert (has_id (VOid obj_id)
            (SocialLinkUpdate.update_data link_data ∪ d)) as Hd'.
  { unfold has_id. by rewrite merged_other. }
  unfold update_link, bind, parse_link_id, find_one_by_id. rewrite Hp.
  cbn [ret coll]. rewrite Hl, find_by_id_first by done.
  rewrite (py_not_found (VOid obj_id) (l1 ++ d :: l2))
    by by apply find_by_id_first.
  destruct (truthy (SocialLinkUpdate.update_data link_data)) eqn:T.
  - rewrite update_one_run, update_data_encodable, Hfit.
    cbn [coll set_coll social_links].
    rewrite Hl, set_fields_first by done.
    by rewrite find_by_id_first.
  - apply bool_decide_eq_false, dec_stable in T.
    unfold ret. rewrite Hl, find_by_id_first by done.
    rewrite T, (left_id_L ∅ (∪)). by rewrite <- Hl, same_world.
Qed.

(** A body whose [order] cannot be encoded is refused by the driver:
    [update_link] raises [OverflowError] and writes nothing. *)
Lemma update_link_overflow (link_id : string) (obj_id : ObjectId)
    (link_data : SocialLinkUpdate.t) (w : world) (d : doc) :
  ObjectId_of_str link_id = Some obj_id ->
  find_by_id (VOid obj_id) (social_links w) = Some d ->
  fits_int64_opt (SocialLinkUpdate.order link_data) = false ->
  update_link link_id link_data w = (Raise OverflowError, w).
Proof.
  intros Hp Hf Hfit.
  unfold update_link, bind, parse_link_id, find_one_by_id. rewrite Hp.
  cbn [ret coll]. rewrite Hf, (py_not_found _ _ _ Hf).
  assert (truthy (SocialLinkUpdate.update_data link_data) = true) as ->.
  { apply bool_decide_eq_true. intros Hempty.
    pose proof (update_data_encodable link_data) as He.
    rewrite Hempty, encodable_empty, Hfit in He. done. }
  by rewrite update_one_run, update_data_encodable, Hfit.
Qed.

(** C3 (amended): on an existing Link, for a body whose [order], if
    present, fits a signed 64-bit integer, [update_link] writes exactly
    the fields of the body that are not [None] into the first document
    carrying the [_id]; every other field of that document keeps its
    value, every other document of [social_links] and all of
    [bio_profiles] stay as they were, and the updated document is
    returned: its [id] is the printed ObjectId, it has no [_id], and every
    other field is that of the updated document.  With the body
    [{order: 9}] the document only has its [order] rewritten, so [title],
    [url] and [icon_type] are as before. *)
Theorem update_link_partial (link_id : string) (obj_id : ObjectId)
    (link_data : SocialLinkUpdate.t) (d : doc) (w : world) :
  ObjectId_of_str link_id = Some obj_id ->
  find_by_id (VOid obj_id) (social_links w) = Some d ->
  fits_int64_opt (SocialLinkUpdate.order link_data) = true ->
  exists (l1 l2 : list doc) (d' r : doc),
    social_links w = l1 ++ d :: l2
    /\ Forall (fun y => ~ has_id (VOid obj_id) y) l1
    /\ update_link link_id link_data w
       = (Return (Some r),
          World (bio_profiles w) (l1 ++ d' :: l2) (clock w) (oid_counter w))
    /\ d' !! "title"
       = match SocialLinkUpdate.title link_data with
         | Some s => Some (VStr s)
         | None => d !! "title"
         end
    /\ d' !! "url"
       = match SocialLinkUpdate.url link_data with
         | Some s => Some (VStr s)
         | None => d !! "url"
         end
    /\ d' !! "icon_type"
       = match SocialLinkUpdate.icon_type link_data with
         | Some s => Some (VStr s)
         | None => d !! "icon_type"
         end
    /\ d' !! "order"
       = match SocialLinkUpdate.order link_data with
         | Some z => Some (VInt z)
         | None => d !! "order"
         end
    /\ (forall k : string,
          k <> "title" -> k <> "url" -> k <> "icon_type" -> k <> "order" ->
          d' !! k = d !! k)
    /\ r !! "id" = Some (VStr (str_of_ObjectId obj_id))
    /\ r !! "_id" = None
    /\ (forall k : string, k <> "id" -> k <> "_id" -> r !! k = d' !! k)
    /\ (link_data = SocialLinkUpdate.Build None None None (Some 9) ->
        d' = <[ "order" := VInt 9 ]> d
        /\ d' !! "order" = Some (VInt 9)
        /\ d' !! "title" = d !! "title"
        /\ d' !! "url" = d !! "url"
        /\ d' !! "icon_type" = d !! "icon_type"
        /\ r !! "order" = Some (VInt 9)
        /\ r !! "title" = d !! "title"
        /\ r !! "url" = d !! "url"
        /\ r !! "icon_type" = d !! "icon_type").
Proof.
  intros Hp (l1 & l2 & Hl & Hd & Hl1)%find_by_id_split Hfit.
  exists l1, l2, (SocialLinkUpdate.update_data link_data ∪ d),
    (convert_object_id (SocialLinkUpdate.update_data link_data ∪ d)).
  assert ((SocialLinkUpdate.update_data link_data ∪ d) !! "_id"
          = Some (VOid obj_id)) as Hid.
  { by rewrite merged_other. }
  split_and!.
  - exact Hl.
  - exact Hl1.
  - by apply (update_link_run _ obj_id).
  - apply merged_title.
  - apply merged_url.
  - apply merged_icon_type.
  - apply merged_order.
  - apply merged_other.
  - by rewrite (convert_lookup_id _ (VOid obj_id)).
  - apply convert_lookup__id.
  - intros. by apply convert_lookup_other.
  - intros ->. rewrite !convert_lookup_other by done.
    rewrite merged_only_order. split_and!; [done|..].
    + by rewrite lookup_insert_eq.
    + by rewrite lookup_insert_ne.
    + by rewrite lookup_insert_ne.
    + by rewrite lookup_insert_ne.
    + by rewrite lookup_insert_eq.
    + by rewrite lookup_insert_ne.
    + by rewrite lookup_insert_ne.
    + by rewrite lookup_insert_ne.
Qed.

(** C4: on an existing Link, [update_link] with a body whose four fields
    are all absent leaves the world exactly as it was and returns the
    stored document: the response has the printed ObjectId as [id], no
    [_id], and every other field as stored. *)
Theorem update_link_empty_body (link_id : string) (obj_id : ObjectId)
    (d : doc) (w : world) :
  ObjectId_of_str link_id = Some obj_id ->
  find_by_id (VOid obj_id) (social_links w) = Some d ->
  exists r : doc,
    update_link link_id (SocialLinkUpdate.Build None None None None) w
    = (Return (Some r), w)
    /\ r !! "id" = Some (VStr (str_of_ObjectId obj_id))
    /\ r !! "_id" = None
    /\ (forall k : string, k <> "id" -> k <> "_id" -> r !! k = d !! k).
Proof.
  intros Hp (l1 & l2 & Hl & Hd & Hl1)%find_by_id_split.
  exists (convert_object_id d). split_and!.
  - rewrite (update_link_run link_id obj_id _ w l1 d l2) by done.
    rewrite update_data_empty, (left_id_L ∅ (∪)).
    by rewrite <- Hl, same_world.
  - by rewrite (convert_lookup_id _ (VOid obj_id)).
  - apply convert_lookup__id.
  - intros. by apply convert_lookup_other.
Qed.

(** *** [update_profile] *)

Lemma profile_update_other (pd : BioProfileCreate.t) (now : datetime)
    (p : doc) (k : string) :
  k <> "name" -> k <> "description" -> k <> "profile_image" ->
  k <> "updated_at" ->
  (profile_update pd now ∪ p) !! k = p !! k.
Proof.
  intros. apply lookup_union_r. unfold profile_update, BioProfileCreate.dict.
  by rewrite !lookup_insert_ne, lookup_singleton_ne by done.
Qed.

(** A run of [update_profile] on a store whose first Profile document
    is [p]. *)
Lemma update_profile_run (pd : BioProfileCreate.t) (w : world)
    (p : doc) (rest : list doc) (id : value) :
  bio_profiles w = p :: rest ->
  p !! "_id" = Some id ->
  update_profile pd w
  = (Return (Some (convert_object_id
                     (profile_update pd (utcnow_at (clock w)) ∪ p))),
     World ((profile_update pd (utcnow_at (clock w)) ∪ p) :: rest)
           (social_links w) (S (clock w)) (oid_counter w)).
Proof.
  intros Hb Hid.
  assert (has_id id (profile_update pd (utcnow_at (clock w)) ∪ p)) as Hid'.
  { unfold has_id. by rewrite profile_update_other. }
  unfold update_profile, bind, find_one. cbn [coll]. rewrite Hb.
  cbn [first_doc head]. unfold py_not, truthy.
  rewrite bool_decide_eq_true_2 by eauto using truthy_has_field.
  cbn [negb]. unfold utcnow, getitem. rewrite Hid.
  unfold ret. rewrite update_one_run.
  fold (profile_update pd (utcnow_at (clock w))).
  rewrite profile_update_encodable.
  unfold find_one_by_id. cbn [coll set_coll bio_profiles].
  rewrite Hb.
  rewrite (set_fields_first id _ [] p rest) by done.
  by rewrite (find_by_id_first id [] _ rest) by done.
Qed.


Lemma profile_update_name (pd : BioProfileCreate.t) (now : datetime)
    (p : doc) :
  (profile_update pd now ∪ p) !! "name"
  = Some (VStr (BioProfileCreate.name pd)).
Proof.
  apply lookup_union_Some_raw. left.
  unfold profile_update, BioProfileCreate.dict.
  by rewrite lookup_insert_ne, lookup_insert_eq by done.
Qed.

Lemma profile_update_description (pd : BioProfileCreate.t) (now : datetime)
    (p : doc) :
  (profile_update pd now ∪ p) !! "description"
  = Some (VStr (BioProfileCreate.description pd)).
Proof.
  apply lookup_union_Some_raw. left.
  unfold profile_update, BioProfileCreate.dict.
  by rewrite !lookup_insert_ne, lookup_insert_eq by done.
Qed.

Lemma profile_update_profile_image (pd : BioProfileCreate.t)
    (now : datetime) (p : doc) :
  (profile_update pd now ∪ p) !! "profile_image"
  = Some (VStr (BioProfileCreate.profile_image pd)).
Proof.
  apply lookup_union_Some_raw. left.
  unfold profile_update, BioProfileCreate.dict.
  by rewrite !lookup_insert_ne, lookup_singleton_eq by done.
Qed.

Lemma profile_update_updated_at (pd : BioProfileCreate.t) (now : datetime)
    (p : doc) :
  (profile_update pd now ∪ p) !! "updated_at" = Some (VDate now).
Proof.
  apply lookup_union_Some_raw. left.
  unfold profile_update. by rewrite lookup_insert_eq.
Qed.

(** C8: [update_profile] raises 404 "Profile not found" on a store
    without a Profile document (and changes nothing).  On a store whose
    Profile is [p], it writes the three fields of the body and
    [updated_at], the reading of the clock, into [p]; every other
    field of [p], the other documents and the Links stay; the updated
    document is returned (with [_id] shown as [id]). *)
Theorem update_profile_replaces (pd : BioProfileCreate.t) (w : world) :
  (bio_profiles w = [] ->
   update_profile pd w
   = (Raise (HTTPException 404 "Profile not found"), w))
  /\ (forall p rest id,
        bio_profiles w = p :: rest ->
        p !! "_id" = Some id ->
        exists p',
          update_profile pd w
          = (Return (Some (convert_object_id p')),
             World (p' :: rest) (social_links w)
                   (S (clock w)) (oid_counter w))
          /\ p' !! "name" = Some (VStr (BioProfileCreate.name pd))
          /\ p' !! "description"
             = Some (VStr (BioProfileCreate.description pd))
          /\ p' !! "profile_image"
             = Some (VStr (BioProfileCreate.profile_image pd))
          /\ p' !! "updated_at" = Some (VDate (utcnow_at (clock w)))
          /\ (forall k : string,
                k <> "name" -> k <> "description" ->
                k <> "profile_image" -> k <> "updated_at" ->
                p' !! k = p !! k)
          /\ convert_object_id p' !! "name"
             = Some (VStr (BioProfileCreate.name pd))
          /\ convert_object_id p' !! "description"
             = Some (VStr (BioProfileCreate.description pd))
          /\ convert_object_id p' !! "profile_image"
             = Some (VStr (BioProfileCreate.profile_image pd))
          /\ convert_object_id p' !! "updated_at"
             = Some (VDate (utcnow_at (clock w)))).
Proof.
  split.
  - intros Hb. unfold update_profile, bind, find_one, raise.
    cbn [coll]. by rewrite Hb.
  - intros p rest id Hb Hid.
    exists (profile_update pd (utcnow_at (clock w)) ∪ p).
    split; [by apply (update_profile_run _ _ _ _ id)|].
    rewrite !convert_lookup_other by done.
    split_and!;
      auto using profile_update_name, profile_update_description,
        profile_update_profile_image, profile_update_updated_at,
        profile_update_other.
Qed.

(** C10: [update_profile] on a store whose Profile is [p] leaves the
    Profile where it is with its [_id] and its [created_at]: the only
    fields whose value can differ afterwards are [name], [description],
    [profile_image] and [updated_at].  The returned document shows the
    same identity (as [id]) and the same [created_at]. *)
Theorem update_profile_keeps_identity (pd : BioProfileCreate.t) (w : world)
    (p : doc) (rest : list doc) (id : value) :
  bio_profiles w = p :: rest ->
  p !! "_id" = Some id ->
  exists p' r w',
    update_profile pd w = (Return (Some r), w')
    /\ bio_profiles w' = p' :: rest
    /\ p' !! "_id" = Some id
    /\ p' !! "created_at" = p !! "created_at"
    /\ (forall k : string,
          p' !! k <> p !! k ->
          k ∈ ["name"; "description"; "profile_image"; "updated_at"])
    /\ r !! "id" = Some (VStr (py_str id))
    /\ r !! "created_at" = p !! "created_at".
Proof.
  intros Hb Hid.
  set (p' := profile_update pd (utcnow_at (clock w)) ∪ p).
  assert (p' !! "_id" = Some id) as Hid'.
  { unfold p'. by rewrite profile_update_other. }
  exists p', (convert_object_id p'),
    (World (p' :: rest) (social_links w) (S (clock w)) (oid_counter w)).
  split_and!.
  - by apply (update_profile_run _ _ _ _ id).
  - done.
  - done.
  - unfold p'. by rewrite profile_update_other.
  - intros k Hk.
    destruct (decide (k = "name")) as [->|]; [set_solver|].
    destruct (decide (k = "description")) as [->|]; [set_solver|].
    destruct (decide (k = "profile_image")) as [->|]; [set_solver|].
    destruct (decide (k = "updated_at")) as [->|]; [set_solver|].
    destruct Hk. unfold p'. by apply profile_update_other.
  - by apply convert_lookup_id.
  - rewrite convert_lookup_other by done.
    unfold p'. by rewrite profile_update_other.
Qed.


(** *** [get_links] *)

Lemma convert_sort_key (d : doc) :
  sort_key "order" (convert_object_id d) = sort_key "order" d.
Proof. unfold sort_key. by rewrite convert_lookup_other. Qed.

Lemma get_links_run (w : world) :
  get_links w
  = (Return (convert_object_id
               <$> take 100 (sort_by "order" (social_links w))), w).
Proof. done. Qed.

(** C7: [get_links] changes nothing and returns the first 100 documents
    of [social_links] sorted ascending on [order] (each with [_id] shown
    as [id]): the returned documents followed by the ones cut off are a
    rearrangement of the whole collection in ascending order, the
    result has [min 100 n] documents of the [n] stored, nothing is cut
    off when at most 100 are stored, and integer [order] values never
    decrease along the result.  The [order] values returned are the same
    for every order in which the same documents were inserted.  Each
    returned document is its stored Link with [_id] removed, the printed
    [_id] as [id] and every other field, [order], [title], [url] and
    [icon_type] among them, as stored. *)
Theorem get_links_sorted_capped (w : world) :
  exists links rest,
    get_links w = (Return (convert_object_id <$> links), w)
    /\ links ++ rest ≡ₚ social_links w
    /\ StronglySorted (key_le "order") (links ++ rest)
    /\ length links = Nat.min 100 (length (social_links w))
    /\ ((length (social_links w) <= 100)%nat -> rest = [])
    /\ StronglySorted (key_le "order") (convert_object_id <$> links)
    /\ (forall (i j : nat) (a b : doc) (x y : Z),
          (i < j)%nat ->
          (convert_object_id <$> links) !! i = Some a ->
          (convert_object_id <$> links) !! j = Some b ->
          a !! "order" = Some (VInt x) ->
          b !! "order" = Some (VInt y) ->
          x <= y)
    /\ (forall w',
          social_links w' ≡ₚ social_links w ->
          exists out',
            get_links w' = (Return out', w')
            /\ sort_key "order" <$> out'
               = sort_key "order" <$> (convert_object_id <$> links))
    /\ Forall2
         (fun r l : doc =>
            r !! "_id" = None
            /\ (forall v, l !! "_id" = Some v ->
                          r !! "id" = Some (VStr (py_str v)))
            /\ (forall k : string,
                  k <> "id" -> k <> "_id" -> r !! k = l !! k))
         (convert_object_id <$> links) links
    /\ column "order" (convert_object_id <$> links) = column "order" links
    /\ column "title" (convert_object_id <$> links) = column "title" links
    /\ column "url" (convert_object_id <$> links) = column "url" links
    /\ column "icon_type" (convert_object_id <$> links)
       = column "icon_type" links.
Proof.
  assert (forall (k : string) (l : list doc),
            k <> "id" -> k <> "_id" ->
            column k (convert_object_id <$> l) = column k l) as Hcol.
  { intros k l ??. unfold column. rewrite <- list_fmap_compose.
    apply list_fmap_ext. intros i d _. cbn. by apply convert_lookup_other. }
  exists (take 100 (sort_by "order" (social_links w))),
    (drop 100 (sort_by "order" (social_links w))).
  assert (StronglySorted (key_le "order")
            (convert_object_id
               <$> take 100 (sort_by "order" (social_links w)))) as Hout.
  { apply (StronglySorted_fmap _ (key_le "order")).
    - intros x y Hxy. unfold key_le, key_leb.
      by rewrite !convert_sort_key.
    - eapply StronglySorted_app_1_l. rewrite take_drop.
      apply sort_by_sorted. }
  split_and!.
  - apply get_links_run.
  - rewrite take_drop. apply sort_by_Permutation.
  - rewrite take_drop. apply sort_by_sorted.
  - by rewrite length_take, sort_by_Permutation.
  - intros Hle. apply drop_ge. by rewrite sort_by_Permutation.
  - done.
  - intros i j a b x y Hij Hi Hj Hx Hy.
    pose proof (StronglySorted_lookup_lt _ _ i j a b Hout Hi Hj Hij) as Hab.
    unfold key_le, key_leb, sort_key in Hab. rewrite Hx, Hy in Hab.
    by apply Z.leb_le in Hab.
  - intros w' Hperm. eexists. split; [apply get_links_run|].
    rewrite <- !list_fmap_compose.
    rewrite !(list_fmap_ext (sort_key "order" ∘ convert_object_id)
                (sort_key "order"))
      by (intros; apply convert_sort_key).
    rewrite !fmap_take. f_equal. by apply sort_by_keys_Permutation.
  - apply Forall2_fmap_l, Forall_Forall2_diag, Forall_forall.
    intros l _. cbn. split_and!.
    + apply convert_lookup__id.
    + intros v Hv. by apply convert_lookup_id.
    + intros. by apply convert_lookup_other.
  - by apply Hcol.
  - by apply Hcol.
  - by apply Hcol.
  - by apply Hcol.
Qed.


(** *** [create_link] *)

Lemma new_link_doc_no_id (l : SocialLinkCreate.t) (pid : value)
    (now : datetime) :
  new_link_doc l pid now !! "_id" = None.
Proof.
  unfold new_link_doc, SocialLinkCreate.dict.
  by rewrite !lookup_insert_ne, lookup_singleton_ne by done.
Qed.

(** A run of [create_link] on a store whose first Profile document is
    [p]: the new document gets the next generated ObjectId and is
    appended, unless it cannot be encoded or a Link already carries that
    ObjectId. *)
Lemma create_link_run (link_data : SocialLinkCreate.t) (w : world)
    (p : doc) (rest : list doc) (pid : value) :
  bio_profiles w = p :: rest ->
  p !! "_id" = Some pid ->
  let o := ObjectId_at (oid_counter w) in
  let d := <[ "_id" := VOid o ]>
             (new_link_doc link_data pid (utcnow_at (clock w))) in
  create_link link_data w
  = if encodable d then
      if decide (Exists (has_id (VOid o)) (social_links w))
      then (Raise DuplicateKeyError,
            World (bio_profiles w) (social_links w)
                  (S (clock w)) (S (oid_counter w)))
      else (Return (Some (convert_object_id d)),
            World (bio_profiles w) (social_links w ++ [d])
                  (S (clock w)) (S (oid_counter w)))
    else (Raise OverflowError,
          World (bio_profiles w) (social_links w)
                (S (clock w)) (S (oid_counter w))).
Proof.
  intros Hb Hid o d.
  unfold create_link, bind, find_one. cbn [coll]. rewrite Hb.
  cbn [first_doc head]. unfold py_not, truthy.
  rewrite bool_decide_eq_true_2 by eauto using truthy_has_field.
  cbn [negb]. unfold getitem. rewrite Hid.
  unfold ret, utcnow, insert_one, bind, with_id.
  fold (new_link_doc link_data pid (utcnow_at (clock w))).
  rewrite new_link_doc_no_id.
  unfold bind, new_ObjectId, ret, encode, store_doc.
  cbn [coll set_coll fst snd bio_profiles social_links clock oid_counter].
  fold o. fold d.
  destruct (encodable d); [|by rewrite <- Hb].
  cbn [coll set_coll fst snd bio_profiles social_links clock oid_counter].
  destruct (decide (Exists (has_id (VOid o)) (social_links w))) as [|Hno].
  - by rewrite <- Hb.
  - unfold find_one_by_id. cbn [coll social_links].
    rewrite (find_by_id_first (VOid o) (social_links w) d []).
    + by rewrite <- Hb.
    + unfold has_id, d. by rewrite lookup_insert_eq.
    + by apply not_Exists_Forall; [intros; apply _|].
Qed.

(** C9 (amended): on a store with a Profile, when [create_link] returns
    and fewer than 100 stored Links have an [order] not above the new
    one, the returned document is among those [get_links] returns right
    after; its [title], [url], [icon_type] and [order] are the inputs,
    and its identity is the newly generated ObjectId, which no Link
    stored before carries. *)
Theorem create_link_round_trip (link_data : SocialLinkCreate.t) (w : world)
    (p : doc) (rest : list doc) (pid : value)
    (res : option doc) (w' : world) :
  bio_profiles w = p :: rest ->
  p !! "_id" = Some pid ->
  create_link link_data w = (Return res, w') ->
  (length (not_above "order" (VInt (SocialLinkCreate.order link_data))
             (social_links w)) < 100)%nat ->
  exists (r : doc) (out : list doc) (d : doc),
    res = Some r
    /\ get_links w' = (Return out, w')
    /\ r ∈ out
    /\ r !! "title" = Some (VStr (SocialLinkCreate.title link_data))
    /\ r !! "url" = Some (VStr (SocialLinkCreate.url link_data))
    /\ r !! "icon_type" = Some (VStr (SocialLinkCreate.icon_type link_data))
    /\ r !! "order" = Some (VInt (SocialLinkCreate.order link_data))
    /\ r !! "id"
       = Some (VStr (str_of_ObjectId (ObjectId_at (oid_counter w))))
    /\ ~ Exists (has_id (VOid (ObjectId_at (oid_counter w))))
         (social_links w)
    /\ social_links w' = social_links w ++ [d]
    /\ d !! "_id" = Some (VOid (ObjectId_at (oid_counter w)))
    /\ r = convert_object_id d.
Proof.
  intros Hb Hid Hrun Hcount.
  rewrite (create_link_run link_data w p rest pid Hb Hid) in Hrun.
  cbv zeta in Hrun.
  set (o := ObjectId_at (oid_counter w)) in *.
  set (d := <[ "_id" := VOid o ]>
              (new_link_doc link_data pid (utcnow_at (clock w)))) in *.
  destruct (encodable d); [|discriminate Hrun].
  destruct (decide (Exists (has_id (VOid o)) (social_links w))) as [|Hno];
    [discriminate Hrun|].
  injection Hrun as <- <-.
  assert (d !! "_id" = Some (VOid o)) as Hdid.
  { unfold d. by rewrite lookup_insert_eq. }
  assert (forall k : string, k <> "_id" -> k <> "id" ->
            convert_object_id d !! k
            = new_link_doc link_data pid (utcnow_at (clock w)) !! k) as Hk.
  { intros k ??. rewrite convert_lookup_other by done.
    unfold d. by rewrite lookup_insert_ne. }
  assert (sort_key "order" d = VInt (SocialLinkCreate.order link_data))
    as Hkey.
  { unfold sort_key, d, new_link_doc, SocialLinkCreate.dict.
    by rewrite !lookup_insert_ne, lookup_singleton_eq by done. }
  exists (convert_object_id d), 
    (convert_object_id
       <$> take 100 (sort_by "order" (social_links w ++ [d]))), d.
  split_and!; try done.
  apply list_elem_of_fmap_2. apply appended_in_first. by rewrite Hkey.
Qed.

End Routes.

(** ** Seeding *)

Section Seeding.
Variable utcnow_at : nat -> datetime.
Variable ObjectId_at : nat -> ObjectId.

Local Abbreviation init_default_data :=
  (init_default_data utcnow_at ObjectId_at).

Lemma coll_set_coll (c : collection) (l : list doc) (w : world) :
  coll c (set_coll c l w) = l.
Proof. by destruct c. Qed.

Lemma set_coll_set_coll (c : collection) (l1 l2 : list doc) (w : world) :
  set_coll c l2 (set_coll c l1 w) = set_coll c l2 w.
Proof. by destruct c. Qed.

(** Storing documents whose [_id]s are distinct and unused appends all
    of them, in order. *)
Lemma store_docs_fresh (c : collection) (vds : list (value * doc))
    (w : world) :
  NoDup vds.*1 ->
  Forall (fun vd => has_id vd.1 vd.2) vds ->
  Forall (fun vd => ~ Exists (has_id vd.1) (coll c w)) vds ->
  store_docs c vds w = (Return tt, set_coll c (coll c w ++ vds.*2) w).
Proof.
  revert w. induction vds as [|vd vds IH]; intros w Hnd Hid Hfresh.
  { cbn. rewrite app_nil_r. by destruct c, w. }
  apply NoDup_cons in Hnd as [Hvd Hnd].
  apply Forall_cons in Hid as [Hid1 Hid].
  apply Forall_cons in Hfresh as [Hf1 Hfresh].
  cbn [store_docs]. unfold bind, store_doc at 1.
  rewrite decide_False by done.
  rewrite IH; [| done | done |].
  - rewrite coll_set_coll, set_coll_set_coll.
    by rewrite <- app_assoc.
  - rewrite coll_set_coll.
    apply Forall_forall. intros vd' Hin [Hex|Hex]%Exists_app.
    + rewrite Forall_forall in Hfresh. by apply (Hfresh vd').
    + apply Exists_cons in Hex as [Hex|Hex]; [|by apply Exists_nil in Hex].
      unfold has_id in *. simplify_eq. apply Hvd.
      apply list_elem_of_fmap. exists vd'. split; [|done]. congruence.
Qed.

(** Storing documents into [social_links] leaves [bio_profiles] alone,
    whether the batch goes through or stops. *)
Lemma store_docs_bio_profiles (vds : list (value * doc)) (w : world) :
  bio_profiles (store_docs Csocial_links vds w).2 = bio_profiles w.
Proof.
  revert w. induction vds as [|vd vds IH]; intros w; [done|].
  cbn [store_docs]. unfold bind, store_doc at 1.
  destruct (decide _); [done|]. by rewrite IH.
Qed.

Lemma with_ids_bio_profiles (ds : list doc) (w : world) :
  bio_profiles (with_ids ObjectId_at ds w).2 = bio_profiles w.
Proof.
  revert w. induction ds as [|d ds IH]; intros w; [done|].
  cbn [with_ids]. unfold bind at 1, with_id.
  destruct (d !! "_id").
  - unfold ret at 1. unfold bind.
    specialize (IH w). by destruct (with_ids ObjectId_at ds w) as [[]].
  - unfold bind at 1, new_ObjectId, ret at 1. unfold bind.
    match goal with |- context [with_ids ObjectId_at ds ?w1] =>
      specialize (IH w1); by destruct (with_ids ObjectId_at ds w1) as [[]] end.
Qed.

Lemma with_ids_returns (ds : list doc) (w : world) :
  exists vds, (with_ids ObjectId_at ds w).1 = Return vds.
Proof.
  revert w. induction ds as [|d ds IH]; intros w; [by eexists|].
  cbn [with_ids]. unfold bind at 1, with_id.
  destruct (d !! "_id").
  - unfold ret at 1. unfold bind.
    destruct (IH w) as [vds Hv].
    destruct (with_ids ObjectId_at ds w) as [[]]; by eexists.
  - unfold bind at 1, new_ObjectId, ret at 1. unfold bind.
    match goal with |- context [with_ids ObjectId_at ds ?w1] =>
      destruct (IH w1) as [vds Hv];
      destruct (with_ids ObjectId_at ds w1) as [[]]; by eexists end.
Qed.

Lemma insert_many_bio_profiles (ds : list doc) (w : world) :
  bio_profiles (insert_many ObjectId_at Csocial_links ds w).2 = bio_profiles w.
Proof.
  unfold insert_many, bind.
  pose proof (with_ids_bio_profiles ds w) as Hw.
  destruct (with_ids ObjectId_at ds w) as [[vds|e] w1]; cbn in *; [|done].
  pose proof (encode_all_world vds.*2 w1) as He.
  destruct (encode_all vds.*2 w1) as [[[]|e] w2]; cbn in He; subst w2;
    [|done].
  by rewrite store_docs_bio_profiles.
Qed.

Lemma default_profile_no_id (t1 t2 : datetime) :
  default_profile t1 t2 !! "_id" = None.
Proof.
  unfold default_profile.
  by rewrite !lookup_insert_ne, lookup_singleton_ne by done.
Qed.

Lemma default_profile_encodable (o : ObjectId) (t1 t2 : datetime) :
  encodable (<[ "_id" := VOid o ]> (default_profile t1 t2)) = true.
Proof.
  unfold default_profile.
  repeat (apply encodable_insert; [done|]). apply encodable_empty.
Qed.

Lemma default_link_encodable (o : ObjectId) (pid : value)
    (title url icon_type : string) (order : Z) (t : datetime) :
  encodable_value pid = true -> fits_int64 order = true ->
  encodable (<[ "_id" := VOid o ]>
               (default_link pid title url icon_type order t)) = true.
Proof.
  intros Hpid Hfit. unfold default_link.
  repeat (apply encodable_insert; [done|]). apply encodable_empty.
Qed.

Lemma default_link_no_id (pid : value) (title url icon_type : string)
    (order : Z) (t : datetime) :
  default_link pid title url icon_type order t !! "_id" = None.
Proof.
  unfold default_link.
  by rewrite !lookup_insert_ne, lookup_singleton_ne by done.
Qed.

(** The world in which the default links are inserted, when the store
    holds no Profile: the default Profile is stored under the next
    generated ObjectId and the clock has been read seven times. *)
Lemma init_default_data_run (w : world) :
  bio_profiles w = [] ->
  let c := clock w in
  let pid := VOid (ObjectId_at (oid_counter w)) in
  init_default_data w
  = insert_many ObjectId_at Csocial_links
      (default_links pid (utcnow_at (2 + c)) (utcnow_at (3 + c))
         (utcnow_at (4 + c)) (utcnow_at (5 + c)) (utcnow_at (6 + c)))
      (World [<[ "_id" := pid ]>
                (default_profile (utcnow_at c) (utcnow_at (1 + c)))]
             (social_links w) (7 + c) (1 + oid_counter w)).
Proof.
  intros Hb c pid.
  unfold init_default_data, bind at 1, count_documents.
  cbn [coll]. rewrite Hb. cbn [length]. rewrite decide_True by done.
  unfold bind at 1, utcnow at 1.
  unfold bind at 1, utcnow at 1.
  cbn [clock bio_profiles social_links oid_counter].
  unfold bind at 1, insert_one, bind at 1, with_id.
  rewrite default_profile_no_id.
  unfold bind at 1, new_ObjectId, ret at 1.
  cbn [clock bio_profiles social_links oid_counter].
  unfold bind at 1, encode. cbn [fst snd].
  rewrite default_profile_encodable.
  unfold bind at 1, store_doc.
  cbn [coll set_coll fst snd clock bio_profiles social_links oid_counter].
  rewrite Hb. rewrite decide_False by (by intros ?%Exists_nil).
  unfold ret at 1.
  repeat (unfold bind at 1, utcnow at 1;
          cbn [clock bio_profiles social_links oid_counter]).
  done.
Qed.


(** The driver numbers the five default links with the next five
    generated ObjectIds. *)
Lemma with_ids_default_links (pid : value) (t1 t2 t3 t4 t5 : datetime)
    (ps ls : list doc) (c n : nat) :
  let oid k := VOid (ObjectId_at (k + n)) in
  with_ids ObjectId_at (default_links pid t1 t2 t3 t4 t5) (World ps ls c n)
  = (Return
       (zip (oid <$> seq 0 5)
            (zip_with (fun k d => <[ "_id" := oid k ]> d) (seq 0 5)
               (default_links pid t1 t2 t3 t4 t5))),
     World ps ls c (5 + n)).
Proof.
  intros oid. unfold default_links. cbn [with_ids].
  unfold bind, with_id. rewrite !default_link_no_id.
  unfold bind, new_ObjectId, ret.
  cbn [fst snd clock bio_profiles social_links oid_counter].
  reflexivity.
Qed.


Lemma encode_default_links (pid : value) (t1 t2 t3 t4 t5 : datetime)
    (n : nat) (w : world) :
  encodable_value pid = true ->
  let oid k := VOid (ObjectId_at (k + n)) in
  encode_all
    (zip (oid <$> seq 0 5)
       (zip_with (fun k d => <[ "_id" := oid k ]> d) (seq 0 5)
          (default_links pid t1 t2 t3 t4 t5))).*2 w
  = (Return tt, w).
Proof.
  intros Hpid oid. apply encode_all_ok. unfold default_links. cbn.
  repeat constructor; by apply default_link_encodable.
Qed.

Lemma init_default_data_noop (w : world) :
  bio_profiles w <> [] -> init_default_data w = (Return tt, w).
Proof.
  intros Hb. unfold init_default_data, bind, count_documents.
  cbn [coll]. rewrite decide_False; [done|].
  by destruct (bio_profiles w).
Qed.

(** C1: on a store without a Profile document, and with the next five
    generated ObjectIds distinct and unused in [social_links],
    [init_default_data] stores exactly one Profile (the default one,
    under a newly generated ObjectId, stamped with the clock) and appends
    exactly five Links titled Facebook, Discord, Steam, GitHub, YouTube
    with [order] 1 to 5, [icon_type] the lower-cased title and
    [profile_id] the [_id] of the new Profile.  On a store that holds a
    Profile document it changes nothing. *)
Theorem init_default_data_seeds (w : world) :
  (bio_profiles w = [] ->
   fresh_ids (ObjectId_at <$> seq (S (oid_counter w)) 5) (social_links w) ->
   exists (p : doc) (links : list doc),
     init_default_data w
     = (Return tt,
        World [p] (social_links w ++ links)
              (7 + clock w) (6 + oid_counter w))
     /\ p !! "_id" = Some (VOid (ObjectId_at (oid_counter w)))
     /\ p !! "name" = Some (VStr "ZwQ")
     /\ p !! "description" = Some (VStr "Bio")
     /\ p !! "created_at" = Some (VDate (utcnow_at (clock w)))
     /\ p !! "updated_at" = Some (VDate (utcnow_at (S (clock w))))
     /\ column "title" links
        = (Some ∘ VStr)
            <$> ["Facebook"; "Discord"; "Steam"; "GitHub"; "YouTube"]
     /\ column "order" links = (Some ∘ VInt) <$> [1; 2; 3; 4; 5]
     /\ column "icon_type" links
        = (Some ∘ VStr ∘ lower)
            <$> ["Facebook"; "Discord"; "Steam"; "GitHub"; "YouTube"]
     /\ column "profile_id" links = replicate 5 (p !! "_id")
     /\ column "_id" links
        = (Some ∘ VOid ∘ ObjectId_at) <$> seq (S (oid_counter w)) 5)
  /\ (bio_profiles w <> [] -> init_default_data w = (Return tt, w)).
Proof.
  split.
  - intros Hb [Hnd Hfresh].
    rewrite init_default_data_run by done. cbv zeta.
    unfold insert_many, bind. rewrite with_ids_default_links. cbv zeta.
    rewrite encode_default_links by done. cbv zeta.
    rewrite store_docs_fresh.
    + eexists _, _. split; [reflexivity|].
      split_and!; reflexivity.
    + cbn. cbn in Hnd. by apply (NoDup_fmap_2 VOid) in Hnd.
    + cbn. repeat constructor; unfold has_id; cbn [fst snd];
        by rewrite lookup_insert_eq.
    + cbn [coll social_links]. cbn in Hfresh |- *.
      repeat match goal with
             | H : Forall _ (_ :: _) |- _ =>
                 apply Forall_cons in H as [? H]
             end.
      by repeat constructor.
  - apply init_default_data_noop.
Qed.


(** C2: seeding twice is seeding once.  Whatever the world, a second
    run of [init_default_data] right after the first returns without
    changing anything, so the world after two runs is the world after
    one; the store then holds one Profile if it held none, and the
    Profiles it held otherwise. *)
Theorem init_default_data_idempotent (w : world) :
  let once := (init_default_data w).2 in
  let twice := (init_default_data once).2 in
  init_default_data once = (Return tt, once)
  /\ twice = once
  /\ length (bio_profiles twice) = Nat.max 1 (length (bio_profiles w))
  /\ (bio_profiles w = [] -> exists p, bio_profiles twice = [p])
  /\ (bio_profiles w <> [] -> twice = w).
Proof.
  intros once twice.
  assert (bio_profiles w = [] -> exists p, bio_profiles once = [p]) as H0.
  { intros Hb. unfold once. rewrite init_default_data_run by done.
    cbv zeta. rewrite insert_many_bio_profiles. by eexists. }
  assert (bio_profiles w <> [] -> once = w) as H1.
  { intros Hb. unfold once. by rewrite init_default_data_noop. }
  assert (bio_profiles once <> []) as Hne.
  { destruct (bio_profiles w) eqn:Hb.
    - destruct H0 as [p ->]; done.
    - rewrite H1 by done. by rewrite Hb. }
  assert (init_default_data once = (Return tt, once)) as Hrun
    by by apply init_default_data_noop.
  assert (twice = once) as Htw by (unfold twice; by rewrite Hrun).
  split_and!; [done|done| | |].
  - rewrite Htw. destruct (bio_profiles w) eqn:Hb.
    + destruct H0 as [p ->]; done.
    + rewrite H1 by done. rewrite Hb. cbn [length]. lia.
  - intros Hb. rewrite Htw. auto.
  - intros Hb. rewrite Htw. auto.
Qed.

End Seeding.

(** ** Runs on concrete stores *)

Section Runs.
Import Sample.

Local Abbreviation init_default_data :=
  (init_default_data utcnow_at ObjectId_at).
Local Abbreviation get_links := (get_links str_of_ObjectId str_of_datetime).
Local Abbreviation update_profile :=
  (update_profile str_of_ObjectId str_of_datetime utcnow_at).
Local Abbreviation create_link :=
  (create_link str_of_ObjectId str_of_datetime utcnow_at ObjectId_at).
Local Abbreviation update_link :=
  (update_link ObjectId_of_str str_of_ObjectId str_of_datetime).
Local Abbreviation delete_link := (delete_link ObjectId_of_str).
Local Abbreviation convert_object_id :=
  (convert_object_id str_of_ObjectId str_of_datetime).

Lemma init_default_data_seeds_witness :
  bio_profiles empty_world = []
  /\ fresh_ids (ObjectId_at <$> seq 1 5) (social_links empty_world)
  /\ exists (p : doc) (links : list doc),
       init_default_data empty_world = (Return tt, World [p] links 7 6)
       /\ column "title" links
          = (Some ∘ VStr)
              <$> ["Facebook"; "Discord"; "Steam"; "GitHub"; "YouTube"]
       /\ column "order" links = (Some ∘ VInt) <$> [1; 2; 3; 4; 5].
Proof.
  assert (fresh_ids (ObjectId_at <$> seq 1 5) (social_links empty_world))
    as Hfresh.
  { split.
    - apply (bool_decide_unpack _). vm_compute. exact I.
    - apply (bool_decide_unpack _). vm_compute. exact I. }
  split; [reflexivity|]. split; [exact Hfresh|].
  destruct (proj1 (init_default_data_seeds utcnow_at ObjectId_at empty_world)
              eq_refl Hfresh)
    as (p & links & Hrun & _ & _ & _ & _ & _ & Ht & Ho & _).
  exists p, links. split; [exact Hrun|]. split; [exact Ht|exact Ho].
Defined.

Lemma init_default_data_idempotent_witness :
  bio_profiles empty_world = []
  /\ exists p : doc,
       bio_profiles
         (init_default_data (init_default_data empty_world).2).2 = [p].
Proof.
  split; [reflexivity|].
  destruct (init_default_data_idempotent utcnow_at ObjectId_at empty_world)
    as (_ & _ & _ & H & _).
  exact (H eq_refl).
Defined.

Lemma update_link_partial_witness :
  ObjectId_of_str id11 = Some 11%N
  /\ find_by_id (VOid 11%N) (social_links small_world) = Some (link0 11 3)
  /\ fits_int64_opt (Some 9) = true
  /\ exists (l1 l2 : list doc) (d' r : doc),
       social_links small_world = l1 ++ link0 11 3 :: l2
       /\ update_link id11
            (SocialLinkUpdate.Build None None None (Some 9)) small_world
          = (Return (Some r),
             World (bio_profiles small_world) (l1 ++ d' :: l2) 0 0)
       /\ d' !! "order" = Some (VInt 9)
       /\ d' !! "title" = link0 11 3 !! "title"
       /\ r !! "order" = Some (VInt 9)
       /\ r !! "id" = Some (VStr id11).
Proof.
  split; [reflexivity|]. split; [reflexivity|]. split; [reflexivity|].
  destruct (update_link_partial ObjectId_of_str str_of_ObjectId
              str_of_datetime id11 11%N
              (SocialLinkUpdate.Build None None None (Some 9))
              (link0 11 3) small_world eq_refl eq_refl eq_refl)
    as (l1 & l2 & d' & r & Hl & _ & Hrun & _ & _ & _ & _ & _ & Hid & _ & _
        & Hnine).
  destruct (Hnine eq_refl) as (_ & Ho & Ht & _ & _ & Hro & _).
  exists l1, l2, d', r. split; [exact Hl|]. split; [exact Hrun|].
  split; [exact Ho|]. split; [exact Ht|]. split; [exact Hro|exact Hid].
Defined.

(** C3 as stated fails: with the body [{order: 2^63}] on an existing Link,
    [update_link] raises [OverflowError] and the world, the Link's [order]
    included, is as before: the field present in the body is not
    applied. *)
Lemma update_link_big_order_refused :
  ObjectId_of_str id11 = Some 11%N
  /\ find_by_id (VOid 11%N) (social_links small_world) = Some (link0 11 3)
  /\ SocialLinkUpdate.order Demo.patch_big_order = Some (2 ^ 63)
  /\ update_link id11 Demo.patch_big_order small_world
     = (Raise OverflowError, small_world)
  /\ link0 11 3 !! "order" = Some (VInt 3).
Proof.
  split; [reflexivity|]. split; [reflexivity|]. split; [reflexivity|].
  split; [|reflexivity].
  apply (bool_decide_unpack _). vm_compute. exact I.
Qed.

Lemma update_link_empty_body_witness :
  ObjectId_of_str id11 = Some 11%N
  /\ find_by_id (VOid 11%N) (social_links small_world) = Some (link0 11 3)
  /\ exists r : doc,
       update_link id11 (SocialLinkUpdate.Build None None None None)
         small_world
       = (Return (Some r), small_world)
       /\ r !! "id" = Some (VStr id11)
       /\ r !! "_id" = None.
Proof.
  split; [reflexivity|]. split; [reflexivity|].
  destruct (update_link_empty_body ObjectId_of_str str_of_ObjectId
              str_of_datetime id11 11%N (link0 11 3) small_world
              eq_refl eq_refl)
    as (r & Hrun & Hid & Hno & _).
  exists r. split; [exact Hrun|]. split; [exact Hid|exact Hno].
Defined.

Lemma delete_link_outcomes_witness :
  (ObjectId_of_str "links" = None
   /\ delete_link "links" small_world
      = (Raise (HTTPException 400 "Invalid link ID"), small_world))
  /\ (ObjectId_of_str id12 = Some 12%N
      /\ ~ Exists (has_id (VOid 12%N)) (social_links small_world)
      /\ delete_link id12 small_world
         = (Raise (HTTPException 404 "Link not found"), small_world))
  /\ (ObjectId_of_str id11 = Some 11%N
      /\ find_by_id (VOid 11%N) (social_links small_world)
         = Some (link0 11 3)
      /\ exists l1 l2 : list doc,
           social_links small_world = l1 ++ link0 11 3 :: l2
           /\ delete_link id11 small_world
              = (Return {[ "message" := VStr "Link deleted successfully" ]},
                 World (bio_profiles small_world) (l1 ++ l2) 0 0)).
Proof.
  assert (~ Exists (has_id (VOid 12%N)) (social_links small_world))
    as Hno.
  { apply (bool_decide_unpack _). vm_compute. exact I. }
  split; [|split].
  - split; [reflexivity|].
    exact (proj1 (delete_link_outcomes ObjectId_of_str "links" small_world)
             eq_refl).
  - split; [reflexivity|]. split; [exact Hno|].
    exact (proj1 (proj2 (delete_link_outcomes ObjectId_of_str id12
                           small_world)) 12%N eq_refl Hno).
  - split; [reflexivity|]. split; [reflexivity|].
    destruct (proj1 (proj2 (proj2 (delete_link_outcomes ObjectId_of_str
                                     id11 small_world)))
                11%N (link0 11 3) eq_refl eq_refl)
      as (l1 & l2 & Hl & _ & Hrun).
    exists l1, l2. split; [exact Hl|exact Hrun].
Defined.

Lemma create_link_without_profile_witness :
  bio_profiles empty_world = []
  /\ create_link new_link empty_world
     = (Raise (HTTPException 404 "Profile not found"), empty_world).
Proof.
  split; [reflexivity|].
  exact (create_link_without_profile str_of_ObjectId str_of_datetime
           utcnow_at ObjectId_at new_link empty_world eq_refl).
Defined.

Lemma get_links_sorted_capped_witness :
  social_links swapped_world ≡ₚ social_links small_world
  /\ exists (links : list doc) (out' : list doc),
       get_links small_world
       = (Return (convert_object_id <$> links), small_world)
       /\ length links = 2%nat
       /\ get_links swapped_world = (Return out', swapped_world)
       /\ sort_key "order" <$> out'
          = sort_key "order" <$> (convert_object_id <$> links).
Proof.
  assert (social_links swapped_world ≡ₚ social_links small_world) as Hp.
  { apply perm_swap. }
  split; [exact Hp|].
  destruct (get_links_sorted_capped str_of_ObjectId str_of_datetime
              small_world)
    as (links & rest & Hrun & _ & _ & Hlen & _ & _ & _ & Hany & _).
  destruct (Hany swapped_world Hp) as (out' & Hrun' & Hkeys).
  exists links, out'.
  split; [exact Hrun|]. split; [exact Hlen|].
  split; [exact Hrun'|exact Hkeys].
Defined.

Lemma update_profile_replaces_witness :
  (bio_profiles empty_world = []
   /\ update_profile new_profile empty_world
      = (Raise (HTTPException 404 "Profile not found"), empty_world))
  /\ (bio_profiles small_world = [profile0]
      /\ profile0 !! "_id" = Some (VOid 1%N)
      /\ exists p' : doc,
           update_profile new_profile small_world
           = (Return (Some (convert_object_id p')),
              World [p'] (social_links small_world) 1 0)
           /\ p' !! "name" = Some (VStr "Zed")
           /\ p' !! "updated_at" = Some (VDate (utcnow_at 0))).
Proof.
  split.
  - split; [reflexivity|].
    exact (proj1 (update_profile_replaces str_of_ObjectId str_of_datetime
                    utcnow_at new_profile empty_world) eq_refl).
  - split; [reflexivity|]. split; [reflexivity|].
    destruct (proj2 (update_profile_replaces str_of_ObjectId
                       str_of_datetime utcnow_at new_profile small_world)
                profile0 [] (VOid 1%N) eq_refl eq_refl)
      as (p' & Hrun & Hn & _ & _ & Hu & _).
    exists p'. split; [exact Hrun|]. split; [exact Hn|exact Hu].
Defined.

Lemma update_profile_keeps_identity_witness :
  bio_profiles small_world = [profile0]
  /\ profile0 !! "_id" = Some (VOid 1%N)
  /\ exists (p' r : doc) (w' : world),
       update_profile new_profile small_world = (Return (Some r), w')
       /\ bio_profiles w' = [p']
       /\ p' !! "_id" = Some (VOid 1%N)
       /\ p' !! "created_at" = profile0 !! "created_at".
Proof.
  split; [reflexivity|]. split; [reflexivity|].
  destruct (update_profile_keeps_identity str_of_ObjectId str_of_datetime
              utcnow_at new_profile small_world profile0 [] (VOid 1%N)
              eq_refl eq_refl)
    as (p' & r & w' & Hrun & Hb & Hid & Hc & _).
  exists p', r, w'. split; [exact Hrun|]. split; [exact Hb|].
  split; [exact Hid|exact Hc].
Defined.

Lemma create_link_round_trip_witness :
  bio_profiles small_world = [profile0]
  /\ profile0 !! "_id" = Some (VOid 1%N)
  /\ create_link new_link small_world
     = (Return created_small.1, created_small.2)
  /\ (length (not_above "order" (VInt (SocialLinkCreate.order new_link))
                (social_links small_world)) < 100)%nat
  /\ exists (r : doc) (out : list doc),
       created_small.1 = Some r
       /\ get_links created_small.2 = (Return out, created_small.2)
       /\ r ∈ out
       /\ r !! "title" = Some (VStr "Mastodon")
       /\ r !! "order" = Some (VInt 1).
Proof.
  assert (create_link new_link small_world
          = (Return created_small.1, created_small.2)) as Hrun.
  { vm_compute. reflexivity. }
  assert ((length (not_above "order"
                     (VInt (SocialLinkCreate.order new_link))
                     (social_links small_world)) < 100)%nat) as Hcount.
  { apply Nat.ltb_lt. vm_compute. reflexivity. }
  split; [reflexivity|]. split; [reflexivity|].
  split; [exact Hrun|]. split; [exact Hcount|].
  destruct (create_link_round_trip str_of_ObjectId str_of_datetime
              utcnow_at ObjectId_at new_link small_world profile0 []
              (VOid 1%N) created_small.1 created_small.2
              eq_refl eq_refl Hrun Hcount)
    as (r & out & d & Hr & Hout & Hin & Ht & _ & _ & Ho & _).
  exists r, out. split; [exact Hr|]. split; [exact Hout|].
  split; [exact Hin|]. split; [exact Ht|exact Ho].
Defined.

(** C9 as stated fails: on a store with a Profile and a hundred Links of
    [order] 0, [create_link] of a Link of [order] 1 returns the created
    document, and [get_links] right after returns a hundred documents,
    none of which is the created one, carries its identity or its
    title. *)
Lemma create_link_hidden_by_cap :
  let r := convert_object_id crowded_new_doc in
  let out := convert_object_id <$> social_links crowded_world in
  bio_profiles crowded_world = [profile0]
  /\ profile0 !! "_id" = Some (VOid 1%N)
  /\ create_link new_link crowded_world = (Return (Some r), crowded_after)
  /\ get_links crowded_after = (Return out, crowded_after)
  /\ length out = 100%nat
  /\ (r ∉ out)
  /\ Forall (fun x : doc => x !! "id" <> r !! "id") out
  /\ Forall (fun x : doc => x !! "title" <> Some (VStr "Mastodon")) out.
Proof.
  intros r out.
  split; [reflexivity|]. split; [reflexivity|].
  repeat split; apply (bool_decide_unpack _); vm_compute; exact I.
Qed.

End Runs.


(** * Further properties of the handlers *)

(** ** Collections under the unique index *)

Lemma coll_wf_snoc (c : list doc) (d : doc) (v : value) :
  coll_wf c -> d !! "_id" = Some v -> ~ Exists (has_id v) c ->
  coll_wf (c ++ [d]).
Proof.
  intros [Hall Hnd] Hd Hno. split.
  - apply Forall_app. split; [done|]. repeat constructor. by eexists.
  - unfold column. rewrite fmap_app. apply NoDup_app. split_and!.
    + done.
    + intros x Hx Hx'. apply list_elem_of_fmap in Hx as (d' & -> & Hd').
      cbn in Hx'. apply list_elem_of_singleton in Hx'.
      apply Hno, Exists_exists. exists d'. split; [done|].
      unfold has_id. congruence.
    + cbn. apply NoDup_singleton.
Qed.

Lemma column_set_fields (v : value) (data : doc) (c : list doc) :
  data !! "_id" = None ->
  column "_id" (set_fields v data c) = column "_id" c.
Proof.
  intros Hdata. unfold set_fields.
  destruct (list_find (has_id v) c) as [[i d]|] eqn:E; [|done].
  apply list_find_Some in E as (Hi & _ & _).
  unfold column. rewrite list_fmap_insert. apply list_insert_id.
  rewrite list_lookup_fmap, Hi. cbn. by rewrite lookup_union_r.
Qed.

Lemma coll_wf_set_fields (v : value) (data : doc) (c : list doc) :
  data !! "_id" = None -> coll_wf c -> coll_wf (set_fields v data c).
Proof.
  intros Hdata [Hall Hnd]. split; [|by rewrite column_set_fields].
  unfold set_fields.
  destruct (list_find (has_id v) c) as [[i d]|] eqn:E; [|done].
  apply list_find_Some in E as (Hi & _ & _).
  apply Forall_insert; [done|].
  rewrite lookup_union_r by done.
  eapply Forall_lookup_1 in Hall; eauto.
Qed.

Lemma coll_wf_remove_by_id (v : value) (c : list doc) :
  coll_wf c -> coll_wf (remove_by_id v c).1.
Proof.
  intros [Hall Hnd]. unfold remove_by_id.
  destruct (list_find (has_id v) c) as [[i d]|]; [|done]. cbn. split.
  - by apply Forall_delete.
  - unfold column. rewrite list_fmap_delete.
    eapply sublist_NoDup; [|apply sublist_delete]. done.
Qed.

(** Under the unique index the document found by [_id] is the only one
    carrying it. *)
Lemma coll_wf_unique (v : value) (l1 : list doc) (d : doc) (l2 : list doc) :
  coll_wf (l1 ++ d :: l2) -> has_id v d ->
  ~ Exists (has_id v) (l1 ++ l2).
Proof.
  intros [_ Hnd] Hd Hex. unfold column in Hnd.
  rewrite fmap_app, fmap_cons in Hnd.
  apply NoDup_app in Hnd as (_ & Hl1 & Hnd2).
  apply NoDup_cons in Hnd2 as [Hl2 _].
  apply Exists_app in Hex as [Hex|Hex];
    apply Exists_exists in Hex as (d' & Hin & Hd').
  - apply (Hl1 (d' !! "_id")).
    + apply list_elem_of_fmap. eauto.
    + unfold has_id in *. rewrite Hd', <- Hd. left.
  - apply Hl2. unfold has_id in *. rewrite Hd, <- Hd'.
    apply list_elem_of_fmap. eauto.
Qed.

(** ** Error paths, reads and responses *)

Section Responses.
Variable ObjectId_of_str : string -> option ObjectId.
Variable str_of_ObjectId : ObjectId -> string.
Variable str_of_datetime : datetime -> string.
Variable utcnow_at : nat -> datetime.
Variable ObjectId_at : nat -> ObjectId.

Local Abbreviation py_str := (py_str str_of_ObjectId str_of_datetime).
Local Abbreviation convert_object_id :=
  (convert_object_id str_of_ObjectId str_of_datetime).
Local Abbreviation get_profile := (get_profile str_of_ObjectId str_of_datetime).
Local Abbreviation get_links := (get_links str_of_ObjectId str_of_datetime).
Local Abbreviation update_profile :=
  (update_profile str_of_ObjectId str_of_datetime utcnow_at).
Local Abbreviation create_link :=
  (create_link str_of_ObjectId str_of_datetime utcnow_at ObjectId_at).
Local Abbreviation update_link :=
  (update_link ObjectId_of_str str_of_ObjectId str_of_datetime).
Local Abbreviation delete_link := (delete_link ObjectId_of_str).

Lemma update_link_invalid (link_id : string) (link_data : SocialLinkUpdate.t)
    (w : world) :
  ObjectId_of_str link_id = None ->
  update_link link_id link_data w
  = (Raise (HTTPException 400 "Invalid link ID"), w).
Proof. intros Hp. unfold update_link, bind, parse_link_id. by rewrite Hp. Qed.

Lemma update_link_missing (link_id : string) (obj_id : ObjectId)
    (link_data : SocialLinkUpdate.t) (w : world) :
  ObjectId_of_str link_id = Some obj_id ->
  find_by_id (VOid obj_id) (social_links w) = None ->
  update_link link_id link_data w
  = (Raise (HTTPException 404 "Link not found"), w).
Proof.
  intros Hp Hf. unfold update_link, bind, parse_link_id, find_one_by_id.
  rewrite Hp. cbn [ret coll]. by rewrite Hf.
Qed.

(** X1: [update_link] raises 400 "Invalid link ID" when the id string
    does not parse and 404 "Link not found" when it parses but no Link
    carries the [_id]; either way nothing is written, whatever the body. *)
Theorem update_link_errors (link_id : string)
    (link_data : SocialLinkUpdate.t) (w : world) :
  (ObjectId_of_str link_id = None ->
   update_link link_id link_data w
   = (Raise (HTTPException 400 "Invalid link ID"), w))
  /\ (forall obj_id,
        ObjectId_of_str link_id = Some obj_id ->
        ~ Exists (has_id (VOid obj_id)) (social_links w) ->
        update_link link_id link_data w
        = (Raise (HTTPException 404 "Link not found"), w)).
Proof.
  split.
  - apply update_link_invalid.
  - intros obj_id Hp Hno. apply (update_link_missing _ obj_id); [done|].
    by apply find_by_id_None.
Qed.

Lemma get_profile_run (w : world) (p : doc) (rest : list doc) (id : value) :
  bio_profiles w = p :: rest ->
  p !! "_id" = Some id ->
  get_profile w = (Return (convert_object_id p), w).
Proof.
  intros Hb Hid. unfold get_profile, bind, find_one. cbn [coll].
  rewrite Hb. cbn [first_doc head]. unfold py_not, truthy.
  by rewrite bool_decide_eq_true_2 by eauto using truthy_has_field.
Qed.

(** X2: [get_profile] raises 404 "Profile not found" on a store without a
    Profile document; otherwise it returns the first Profile document with
    its [_id] shown as the string [id], every other field as stored.  It
    never writes. *)
Theorem get_profile_reads (w : world) :
  (bio_profiles w = [] ->
   get_profile w = (Raise (HTTPException 404 "Profile not found"), w))
  /\ (forall p rest id,
        bio_profiles w = p :: rest ->
        p !! "_id" = Some id ->
        exists r,
          get_profile w = (Return r, w)
          /\ r !! "id" = Some (VStr (py_str id))
          /\ r !! "_id" = None
          /\ (forall k : string, k <> "id" -> k <> "_id" -> r !! k = p !! k)).
Proof.
  split.
  - intros Hb. unfold get_profile, bind, find_one, raise.
    cbn [coll]. by rewrite Hb.
  - intros p rest id Hb Hid. exists (convert_object_id p). split_and!.
    + by apply (get_profile_run w p rest id).
    + by apply convert_lookup_id.
    + apply convert_lookup__id.
    + intros. by apply convert_lookup_other.
Qed.

(** X3: [convert_object_id] never leaves an [_id] key, returns a document
    without [_id] as it is, is idempotent, and overwrites a field already
    named [id]. *)
Theorem convert_object_id_idempotent (d : doc) :
  convert_object_id (convert_object_id d) = convert_object_id d
  /\ convert_object_id d !! "_id" = None
  /\ (d !! "_id" = None -> convert_object_id d = d)
  /\ (forall v old,
        d !! "_id" = Some v -> d !! "id" = Some old ->
        convert_object_id d !! "id" = Some (VStr (py_str v))).
Proof.
  assert (forall x : doc, x !! "_id" = None -> convert_object_id x = x) as Hno.
  { intros x Hx. unfold convert_object_id. by rewrite Hx. }
  split_and!.
  - apply Hno, convert_lookup__id.
  - apply convert_lookup__id.
  - apply Hno.
  - intros v old Hv _. by apply convert_lookup_id.
Qed.

(** The document a response carries, if any. *)
Lemma fmap_convert_no__id (o : option doc) (r : doc) :
  convert_object_id <$> o = Some r -> r !! "_id" = None.
Proof.
  destruct o; intros [= <-]. apply convert_lookup__id.
Qed.

(** X4: no response exposes the store's [_id] field: the document returned
    by [get_profile], [update_profile], [create_link] and [update_link],
    and every document returned by [get_links], has no [_id] key; and
    [get_links] returns at most 100 documents. *)
Theorem responses_hide__id (w : world) :
  (forall r w', get_profile w = (Return r, w') -> r !! "_id" = None)
  /\ (forall pd r w',
        update_profile pd w = (Return (Some r), w') -> r !! "_id" = None)
  /\ (forall ld r w',
        create_link ld w = (Return (Some r), w') -> r !! "_id" = None)
  /\ (forall link_id ld r w',
        update_link link_id ld w = (Return (Some r), w') ->
        r !! "_id" = None)
  /\ (forall out w',
        get_links w = (Return out, w') ->
        Forall (fun r : doc => r !! "_id" = None) out
        /\ (length out <= 100)%nat).
Proof.
  split_and!.
  - intros r w'. unfold get_profile, bind, find_one, ret, raise.
    destruct (first_doc (coll Cbio_profiles w)); [|done].
    destruct (py_not _); [done|]. intros [= <- _].
    apply convert_lookup__id.
  - intros pd r w'.
    unfold update_profile, bind, find_one, utcnow, getitem, update_one,
      find_one_by_id, ret, raise.
    destruct (first_doc (coll Cbio_profiles w)) as [p|]; [|done].
    destruct (py_not _); [done|].
    destruct (p !! "_id"); [|done].
    unfold bind, encode. destruct (encodable _); [|discriminate].
    intros [= Hr _]. by apply fmap_convert_no__id in Hr.
  - intros ld r w'.
    unfold create_link, bind, find_one, getitem, ret, raise.
    destruct (first_doc (coll Cbio_profiles w)) as [p|]; [|done].
    destruct (py_not _); [done|].
    destruct (p !! "_id"); [|done].
    unfold utcnow, insert_one, bind, find_one_by_id, ret.
    destruct (with_id _ _ _) as [[vd|e] w1]; [|discriminate].
    destruct (encode _ _) as [[[]|e] w1']; [|discriminate].
    destruct (store_doc _ _ _ _) as [[[]|e] w2]; [|discriminate].
    intros [= Hr _]. by apply fmap_convert_no__id in Hr.
  - intros link_id ld r w'.
    unfold update_link, bind, parse_link_id, find_one_by_id, ret, raise.
    destruct (ObjectId_of_str link_id); [|done].
    destruct (py_not _); [done|].
    destruct (truthy _).
    + unfold update_one, bind, encode.
      destruct (encodable _); [|discriminate].
      intros [= Hr _]. by apply fmap_convert_no__id in Hr.
    + intros [= Hr _]. by apply fmap_convert_no__id in Hr.
  - intros out w'. rewrite get_links_run. intros [= <- _]. split.
    + apply Forall_fmap, Forall_forall. intros x _.
      apply convert_lookup__id.
    + rewrite length_fmap, length_take. lia.
Qed.

(** ** The unique index is kept *)

Lemma keeps_intro {A} (I : world -> Prop) (m : M A) :
  (forall w, I w -> I (m w).2) -> keeps I m.
Proof.
  intros H w Hw. specialize (H w Hw). by destruct (m w) as [[a|e] w'].
Qed.

Lemma store_wf_same_store (w w' : world) :
  bio_profiles w' = bio_profiles w -> social_links w' = social_links w ->
  store_wf w -> store_wf w'.
Proof. unfold store_wf. by intros -> ->. Qed.

Lemma store_wf_set_coll (c : collection) (l : list doc) (w : world) :
  store_wf w -> coll_wf l -> store_wf (set_coll c l w).
Proof. intros [??] ?. by destruct c. Qed.

Lemma store_wf_coll (c : collection) (w : world) :
  store_wf w -> coll_wf (coll c w).
Proof. intros [??]. by destruct c. Qed.

Lemma with_id_spec (d : doc) (w : world) :
  exists vd w',
    with_id ObjectId_at d w = (Return vd, w')
    /\ has_id vd.1 vd.2
    /\ bio_profiles w' = bio_profiles w
    /\ social_links w' = social_links w.
Proof.
  unfold with_id. destruct (d !! "_id") as [v|] eqn:E.
  - by exists (v, d), w.
  - eexists (_, _), _. split; [reflexivity|].
    split; [|done]. unfold has_id. cbn. by rewrite lookup_insert_eq.
Qed.

Lemma store_doc_wf (c : collection) (e : exn) (vd : value * doc)
    (w : world) :
  has_id vd.1 vd.2 -> store_wf w -> store_wf (store_doc c e vd w).2.
Proof.
  intros Hid Hwf. unfold store_doc.
  destruct (decide (Exists (has_id vd.1) (coll c w))); [done|]. cbn.
  apply store_wf_set_coll; [done|].
  eapply coll_wf_snoc; eauto using store_wf_coll.
Qed.

Lemma insert_one_wf (c : collection) (d : doc) (w : world) :
  store_wf w -> store_wf (insert_one ObjectId_at c d w).2.
Proof.
  intros Hwf. unfold insert_one, bind.
  destruct (with_id_spec d w) as (vd & w1 & -> & Hid & Hb & Hs).
  assert (store_wf w1) as Hwf1 by by apply (store_wf_same_store w).
  unfold encode. destruct (encodable vd.2); [|done].
  pose proof (store_doc_wf c DuplicateKeyError vd w1 Hid Hwf1) as H.
  by destruct (store_doc c DuplicateKeyError vd w1) as [[[]|e] w2].
Qed.

Lemma update_one_wf (c : collection) (v : value) (data : doc) (w : world) :
  data !! "_id" = None -> store_wf w -> store_wf (update_one c v data w).2.
Proof.
  intros Hdata Hwf. rewrite update_one_run.
  destruct (encodable data); [|done]. cbn [snd].
  apply store_wf_set_coll; [done|].
  apply coll_wf_set_fields; [done|]. by apply store_wf_coll.
Qed.

Lemma with_ids_spec (ds : list doc) (w : world) :
  exists vds w',
    with_ids ObjectId_at ds w = (Return vds, w')
    /\ Forall (fun vd => has_id vd.1 vd.2) vds
    /\ bio_profiles w' = bio_profiles w
    /\ social_links w' = social_links w.
Proof.
  revert w. induction ds as [|d ds IH]; intros w.
  { by exists [], w. }
  cbn [with_ids]. unfold bind at 1.
  destruct (with_id_spec d w) as (vd & w1 & -> & Hid & Hb & Hs).
  unfold bind, ret.
  destruct (IH w1) as (vds & w2 & -> & Hids & Hb2 & Hs2).
  exists (vd :: vds), w2. split_and!; [done| |congruence..].
  by constructor.
Qed.

Lemma store_docs_wf (c : collection) (vds : list (value * doc)) (w : world) :
  Forall (fun vd => has_id vd.1 vd.2) vds -> store_wf w ->
  store_wf (store_docs c vds w).2.
Proof.
  intros Hids. revert w. induction Hids as [|vd vds Hid Hids IH]; intros w Hwf.
  { done. }
  cbn [store_docs]. unfold bind.
  pose proof (store_doc_wf c BulkWriteError vd w Hid Hwf) as H.
  destruct (store_doc c BulkWriteError vd w) as [[[]|e] w1]; [|done].
  by apply IH.
Qed.

Lemma insert_many_wf (c : collection) (ds : list doc) (w : world) :
  store_wf w -> store_wf (insert_many ObjectId_at c ds w).2.
Proof.
  intros Hwf. unfold insert_many, bind.
  destruct (with_ids_spec ds w) as (vds & w1 & -> & Hids & Hb & Hs).
  assert (store_wf w1) as Hwf1 by by apply (store_wf_same_store w).
  pose proof (encode_all_world vds.*2 w1) as He.
  destruct (encode_all vds.*2 w1) as [[[]|e] w2]; cbn in He; subst w2;
    [|done].
  by apply store_docs_wf.
Qed.

(** X5: every handler keeps the store well formed, whether it returns or
    raises: if every document carries an [_id] and no two documents of a
    collection share one, the same holds after seeding and after each
    route. *)
Theorem handlers_keep_store_wf :
  keeps store_wf (init_default_data utcnow_at ObjectId_at)
  /\ keeps store_wf get_profile
  /\ (forall pd, keeps store_wf (update_profile pd))
  /\ keeps store_wf get_links
  /\ (forall ld, keeps store_wf (create_link ld))
  /\ (forall link_id ld, keeps store_wf (update_link link_id ld))
  /\ (forall link_id, keeps store_wf (delete_link link_id)).
Proof.
  split_and!; intros; apply keeps_intro; intros w Hwf.
  - destruct (bio_profiles w) eqn:Hb.
    + rewrite init_default_data_run by done. cbv zeta.
      apply insert_many_wf. destruct Hwf as [_ Hs]. split; [|done].
      split.
      * repeat constructor. eexists. apply lookup_insert_eq.
      * cbn. apply NoDup_singleton.
    + rewrite init_default_data_noop; [done|]. by rewrite Hb.
  - unfold get_profile, bind, find_one, ret, raise.
    destruct (first_doc _); [|done]. by destruct (py_not _).
  - unfold update_profile, bind, find_one, utcnow, getitem,
      find_one_by_id, ret, raise.
    destruct (first_doc (coll Cbio_profiles w)) as [p|]; [|done].
    destruct (py_not _); [done|].
    destruct (p !! "_id") as [id|]; [|done].
    match goal with |- context [update_one ?c ?v ?data ?w1] =>
      assert (store_wf (update_one c v data w1).2) as H;
      [apply update_one_wf; [|exact Hwf]|
       destruct (update_one c v data w1) as [[[]|ex] w2]; exact H] end.
    unfold BioProfileCreate.dict.
    by rewrite !lookup_insert_ne, lookup_singleton_ne by done.
  - by rewrite get_links_run.
  - unfold create_link, bind, find_one, getitem, ret, raise.
    destruct (first_doc (coll Cbio_profiles w)) as [p|]; [|done].
    destruct (py_not _); [done|].
    destruct (p !! "_id"); [|done].
    unfold utcnow. 
    match goal with |- context [insert_one ObjectId_at ?c ?d ?w1] =>
      pose proof (insert_one_wf c d w1 Hwf) as H;
      destruct (insert_one ObjectId_at c d w1) as [[iv|ex] w2] end; done.
  - unfold update_link, bind, parse_link_id, find_one_by_id, ret, raise.
    destruct (ObjectId_of_str link_id); [|done].
    destruct (py_not _); [done|].
    destruct (truthy _); [|done].
    match goal with |- context [update_one ?c ?v ?data ?w1] =>
      assert (store_wf (update_one c v data w1).2) as H;
      [apply update_one_wf; [|exact Hwf]|
       destruct (update_one c v data w1) as [[[]|ex] w2]; exact H] end.
    by apply update_data_other.
  - unfold delete_link, bind, parse_link_id, delete_one, ret, raise.
    destruct (ObjectId_of_str link_id) as [o|]; [|done]. cbn [coll set_coll].
    assert (store_wf
              (World (bio_profiles w)
                 (remove_by_id (VOid o) (social_links w)).1
                 (clock w) (oid_counter w))) as H.
    { destruct Hwf as [Hb Hs]. split; [done|]. cbn.
      by apply coll_wf_remove_by_id. }
    by destruct (decide _).
Qed.


(** ** What the routes leave alone *)

Lemma length_set_fields (v : value) (data : doc) (c : list doc) :
  length (set_fields v data c) = length c.
Proof.
  unfold set_fields. destruct (list_find _ _) as [[i d]|]; [|done].
  apply length_insert.
Qed.

Lemma tail_set_fields_head (v : value) (data : doc) (p : doc)
    (rest : list doc) :
  has_id v p -> tail (set_fields v data (p :: rest)) = rest.
Proof.
  intros Hp. change (p :: rest) with ([] ++ p :: rest).
  by rewrite set_fields_first.
Qed.

(** X6: no route adds or removes a Profile.  The link routes and the two
    reads leave [bio_profiles] exactly as it is (the reads leave the whole
    world), and [update_profile] leaves [social_links], the number of
    Profile documents and every Profile document but the first as they
    are. *)
Theorem routes_keep_profiles (w : world) :
  (forall ld, bio_profiles (create_link ld w).2 = bio_profiles w)
  /\ (forall link_id ld,
        bio_profiles (update_link link_id ld w).2 = bio_profiles w)
  /\ (forall link_id, bio_profiles (delete_link link_id w).2 = bio_profiles w)
  /\ (get_links w).2 = w
  /\ (get_profile w).2 = w
  /\ (forall pd,
        social_links (update_profile pd w).2 = social_links w
        /\ length (bio_profiles (update_profile pd w).2)
           = length (bio_profiles w)
        /\ tail (bio_profiles (update_profile pd w).2)
           = tail (bio_profiles w)).
Proof.
  split_and!.
  - intros ld. unfold create_link, bind, find_one, getitem, ret, raise.
    destruct (first_doc (coll Cbio_profiles w)) as [p|]; [|done].
    destruct (py_not _); [done|].
    destruct (p !! "_id"); [|done].
    unfold utcnow, insert_one, bind, find_one_by_id, ret.
    match goal with |- context [with_id ObjectId_at ?d ?w1] =>
      destruct (with_id_spec d w1) as (vd & w2 & -> & _ & Hb & _) end.
    unfold encode. destruct (encodable _); [|cbn; by rewrite Hb].
    unfold store_doc. destruct (decide _); cbn; by rewrite Hb.
  - intros link_id ld.
    unfold update_link, bind, parse_link_id, find_one_by_id, ret, raise.
    destruct (ObjectId_of_str link_id); [|done].
    destruct (py_not _); [done|]. destruct (truthy _); [|done].
    rewrite update_one_run. by destruct (encodable _).
  - intros link_id.
    unfold delete_link, bind, parse_link_id, delete_one, ret, raise.
    destruct (ObjectId_of_str link_id); [|done]. cbn [coll set_coll].
    by destruct (decide _).
  - by rewrite get_links_run.
  - unfold get_profile, bind, find_one, ret, raise.
    destruct (first_doc _); [|done]. by destruct (py_not _).
  - intros pd.
    unfold update_profile, bind, find_one, utcnow, getitem,
      find_one_by_id, ret, raise. cbn [coll].
    destruct (bio_profiles w) as [|p rest] eqn:Hb; cbn [first_doc head];
      [cbn [snd]; by rewrite Hb|].
    destruct (py_not _); [cbn [snd]; by rewrite Hb|].
    destruct (p !! "_id") as [id|] eqn:Hid; cbn; rewrite ?Hb; [|done].
    rewrite update_one_run.
    destruct (encodable _); cbn; rewrite ?Hb; [|done].
    split_and!; [done|apply length_set_fields|].
    by apply tail_set_fields_head.
Qed.

(** ** Deleting *)

Lemma delete_link_missing (link_id : string) (obj_id : ObjectId)
    (w : world) :
  ObjectId_of_str link_id = Some obj_id ->
  ~ Exists (has_id (VOid obj_id)) (social_links w) ->
  delete_link link_id w = (Raise (HTTPException 404 "Link not found"), w).
Proof.
  intros Hp Hno.
  unfold delete_link, bind, parse_link_id, delete_one. rewrite Hp.
  cbn [ret coll set_coll]. rewrite remove_by_id_None by done.
  cbn [fst snd]. rewrite decide_True by done.
  unfold raise. by rewrite same_world.
Qed.

Lemma delete_link_run (link_id : string) (obj_id : ObjectId) (w : world)
    (l1 : list doc) (d : doc) (l2 : list doc) :
  ObjectId_of_str link_id = Some obj_id ->
  social_links w = l1 ++ d :: l2 ->
  has_id (VOid obj_id) d ->
  Forall (fun y => ~ has_id (VOid obj_id) y) l1 ->
  delete_link link_id w
  = (Return {[ "message" := VStr "Link deleted successfully" ]},
     World (bio_profiles w) (l1 ++ l2) (clock w) (oid_counter w)).
Proof.
  intros Hp Hl Hd Hl1.
  unfold delete_link, bind, parse_link_id, delete_one. rewrite Hp.
  cbn [ret coll set_coll]. rewrite Hl, remove_by_id_first by done.
  cbn [fst snd]. by rewrite decide_False by done.
Qed.

(** X7: on a collection without duplicate [_id]s, a deleted Link is gone:
    after [delete_link] has removed the Link with the given id, a second
    [delete_link] and any [update_link] on that id raise 404 "Link not
    found" and write nothing. *)
Theorem deleted_link_is_gone (link_id : string) (obj_id : ObjectId)
    (d : doc) (ld : SocialLinkUpdate.t) (w : world) :
  ObjectId_of_str link_id = Some obj_id ->
  coll_wf (social_links w) ->
  find_by_id (VOid obj_id) (social_links w) = Some d ->
  let w1 := (delete_link link_id w).2 in
  delete_link link_id w1
  = (Raise (HTTPException 404 "Link not found"), w1)
  /\ update_link link_id ld w1
     = (Raise (HTTPException 404 "Link not found"), w1).
Proof.
  intros Hp Hwf (l1 & l2 & Hl & Hd & Hl1)%find_by_id_split w1.
  unfold w1. rewrite (delete_link_run link_id obj_id w l1 d l2) by done.
  cbn [snd]. rewrite Hl in Hwf.
  pose proof (coll_wf_unique _ _ _ _ Hwf Hd) as Hno.
  split.
  - by apply (delete_link_missing _ obj_id).
  - apply (update_link_missing _ obj_id); [done|]. by apply find_by_id_None.
Qed.

(** X8: the [id] a successful [create_link] returns is the printed form of
    the generated ObjectId; when the parser reads that string back as the
    same ObjectId, [delete_link] on it removes exactly the created Link,
    so both collections are as before the create. *)
Theorem create_then_delete (ld : SocialLinkCreate.t) (w : world)
    (p : doc) (rest : list doc) (pid : value) (r : doc) (w' : world) :
  bio_profiles w = p :: rest ->
  p !! "_id" = Some pid ->
  create_link ld w = (Return (Some r), w') ->
  ObjectId_of_str (str_of_ObjectId (ObjectId_at (oid_counter w)))
  = Some (ObjectId_at (oid_counter w)) ->
  r !! "id" = Some (VStr (str_of_ObjectId (ObjectId_at (oid_counter w))))
  /\ delete_link (str_of_ObjectId (ObjectId_at (oid_counter w))) w'
     = (Return {[ "message" := VStr "Link deleted successfully" ]},
        World (bio_profiles w) (social_links w)
              (S (clock w)) (S (oid_counter w))).
Proof.
  intros Hb Hid Hrun Hparse.
  rewrite (create_link_run _ _ _ _ ld w p rest pid Hb Hid) in Hrun.
  cbv zeta in Hrun.
  set (o := ObjectId_at (oid_counter w)) in *.
  set (d := <[ "_id" := VOid o ]>
              (new_link_doc ld pid (utcnow_at (clock w)))) in *.
  destruct (encodable d); [|discriminate Hrun].
  destruct (decide (Exists (has_id (VOid o)) (social_links w))) as [|Hno];
    [discriminate Hrun|].
  injection Hrun as <- <-.
  assert (has_id (VOid o) d) as Hd.
  { unfold has_id, d. by rewrite lookup_insert_eq. }
  split.
  - by rewrite (convert_lookup_id _ _ d (VOid o)).
  - rewrite (delete_link_run _ o _ (social_links w) d []); try done.
    + cbn. by rewrite app_nil_r.
    + by apply not_Exists_Forall; [intros; apply _|].
Qed.


(** ** Updates compose *)

Lemma update_data_merge (b a : SocialLinkUpdate.t) :
  SocialLinkUpdate.update_data (merge_update b a)
  = SocialLinkUpdate.update_data b ∪ SocialLinkUpdate.update_data a.
Proof.
  apply map_eq. intros k. rewrite lookup_union.
  destruct (decide (k = "title")) as [->|].
  { rewrite !update_data_title. cbn.
    by destruct (SocialLinkUpdate.title b), (SocialLinkUpdate.title a). }
  destruct (decide (k = "url")) as [->|].
  { rewrite !update_data_url. cbn.
    by destruct (SocialLinkUpdate.url b), (SocialLinkUpdate.url a). }
  destruct (decide (k = "icon_type")) as [->|].
  { rewrite !update_data_icon_type. cbn.
    by destruct (SocialLinkUpdate.icon_type b),
         (SocialLinkUpdate.icon_type a). }
  destruct (decide (k = "order")) as [->|].
  { rewrite !update_data_order. cbn.
    by destruct (SocialLinkUpdate.order b), (SocialLinkUpdate.order a). }
  by rewrite !update_data_other.
Qed.

Lemma merge_update_same (a : SocialLinkUpdate.t) : merge_update a a = a.
Proof. destruct a as [[?|] [?|] [?|] [?|]]; reflexivity. Qed.

Lemma merge_update_fits (b a : SocialLinkUpdate.t) :
  fits_int64_opt (SocialLinkUpdate.order a) = true ->
  fits_int64_opt (SocialLinkUpdate.order b) = true ->
  fits_int64_opt (SocialLinkUpdate.order (merge_update b a)) = true.
Proof. cbn. by destruct (SocialLinkUpdate.order b). Qed.

(** Two updates of the same id in a row, with bodies the driver can
    encode, are one update with the merged body: same response, same
    world. *)
Lemma update_link_then (link_id : string) (a b : SocialLinkUpdate.t)
    (w : world) :
  fits_int64_opt (SocialLinkUpdate.order a) = true ->
  fits_int64_opt (SocialLinkUpdate.order b) = true ->
  update_link link_id b (update_link link_id a w).2
  = update_link link_id (merge_update b a) w.
Proof.
  intros Ha Hb'.
  destruct (ObjectId_of_str link_id) as [o|] eqn:Hp.
  2:{ rewrite (update_link_invalid link_id a w),
        (update_link_invalid link_id (merge_update b a) w) by done.
      cbn [snd]. by rewrite (update_link_invalid link_id b w). }
  destruct (find_by_id (VOid o) (social_links w)) as [d|] eqn:Hf.
  2:{ rewrite (update_link_missing link_id o a w),
        (update_link_missing link_id o (merge_update b a) w) by done.
      cbn [snd]. by rewrite (update_link_missing link_id o b w). }
  apply find_by_id_split in Hf as (l1 & l2 & Hl & Hd & Hl1).
  rewrite (update_link_run _ _ _ link_id o a w l1 d l2) by done. cbn [snd].
  assert (has_id (VOid o) (SocialLinkUpdate.update_data a ∪ d)) as Hd'.
  { unfold has_id. by rewrite merged_other. }
  rewrite (update_link_run _ _ _ link_id o b _ l1
             (SocialLinkUpdate.update_data a ∪ d) l2) by done.
  rewrite (update_link_run _ _ _ link_id o (merge_update b a) w l1 d l2)
    by auto using merge_update_fits.
  cbn [bio_profiles social_links clock oid_counter].
  by rewrite update_data_merge, (assoc_L (∪)).
Qed.

(** X9: for bodies whose [order], if present, fits a signed 64-bit
    integer, [update_link] twice on the same id is one [update_link] with
    the merged body, in which a field of the second body wins over the
    same field of the first: the second call returns the same response
    and leaves the same world, on the 400 and 404 paths as well. *)
Theorem update_link_compose (link_id : string) (a b : SocialLinkUpdate.t)
    (w : world) :
  fits_int64_opt (SocialLinkUpdate.order a) = true ->
  fits_int64_opt (SocialLinkUpdate.order b) = true ->
  update_link link_id b (update_link link_id a w).2
  = update_link link_id (merge_update b a) w.
Proof. apply update_link_then. Qed.

(** X10: [update_link] is idempotent: repeating the same request returns
    the same response and leaves the world as the first one left it. *)
Theorem update_link_idempotent (link_id : string) (a : SocialLinkUpdate.t)
    (w : world) :
  update_link link_id a (update_link link_id a w).2
  = update_link link_id a w.
Proof.
  destruct (fits_int64_opt (SocialLinkUpdate.order a)) eqn:Hfit.
  { by rewrite update_link_then, merge_update_same. }
  destruct (ObjectId_of_str link_id) as [o|] eqn:Hp.
  2:{ rewrite (update_link_invalid link_id a w) by done.
      cbn [snd]. by rewrite (update_link_invalid link_id a w). }
  destruct (find_by_id (VOid o) (social_links w)) as [d|] eqn:Hf.
  2:{ rewrite (update_link_missing link_id o a w) by done.
      cbn [snd]. by rewrite (update_link_missing link_id o a w). }
  rewrite (update_link_overflow _ _ _ link_id o a w d) by done.
  cbn [snd]. by rewrite (update_link_overflow _ _ _ link_id o a w d).
Qed.

Lemma profile_update_absorbs (a b : BioProfileCreate.t) (ta tb : datetime)
    (p : doc) :
  profile_update b tb ∪ (profile_update a ta ∪ p) = profile_update b tb ∪ p.
Proof.
  apply map_eq. intros k.
  destruct (decide (k = "name")) as [->|].
  { by rewrite !profile_update_name. }
  destruct (decide (k = "description")) as [->|].
  { by rewrite !profile_update_description. }
  destruct (decide (k = "profile_image")) as [->|].
  { by rewrite !profile_update_profile_image. }
  destruct (decide (k = "updated_at")) as [->|].
  { by rewrite !profile_update_updated_at. }
  by rewrite !profile_update_other.
Qed.

(** X11: [update_profile] is a full replace: after two calls in a row the
    response and the world are those of the second call alone, made one
    clock reading later; nothing of the first body survives. *)
Theorem update_profile_last_wins (a b : BioProfileCreate.t) (w : world)
    (p : doc) (rest : list doc) (id : value) :
  bio_profiles w = p :: rest ->
  p !! "_id" = Some id ->
  update_profile b (update_profile a w).2 = update_profile b (tick w).
Proof.
  intros Hb Hid.
  rewrite (update_profile_run _ _ _ a w p rest id) by done. cbn [snd].
  rewrite (update_profile_run _ _ _ b _
             (profile_update a (utcnow_at (clock w)) ∪ p) rest id);
    [|done|by rewrite profile_update_other].
  rewrite (update_profile_run _ _ _ b (tick w) p rest id) by done.
  cbn [bio_profiles social_links clock oid_counter tick].
  by rewrite profile_update_absorbs.
Qed.

(** X12: [get_profile] right after a successful [update_profile] returns
    the very document [update_profile] returned, and the store holds the
    inputs. *)
Theorem get_profile_after_update (pd : BioProfileCreate.t) (w : world)
    (p : doc) (rest : list doc) (id : value) :
  bio_profiles w = p :: rest ->
  p !! "_id" = Some id ->
  exists r w',
    update_profile pd w = (Return (Some r), w')
    /\ get_profile w' = (Return r, w')
    /\ r !! "name" = Some (VStr (BioProfileCreate.name pd))
    /\ r !! "description" = Some (VStr (BioProfileCreate.description pd))
    /\ r !! "profile_image"
       = Some (VStr (BioProfileCreate.profile_image pd)).
Proof.
  intros Hb Hid. eexists _, _. split.
  { by apply (update_profile_run _ _ _ pd w p rest id). }
  split.
  { apply (get_profile_run _ _ rest id); [done|].
    by rewrite profile_update_other. }
  rewrite !convert_lookup_other by done.
  by rewrite profile_update_name, profile_update_description,
    profile_update_profile_image.
Qed.

(** ** What [create_link] stores *)

(** X13: on a store with a Profile, [create_link] has three outcomes.  It
    appends one document to [social_links] and returns it; or it raises
    [DuplicateKeyError] (a Link already carries the generated ObjectId);
    or it raises [OverflowError] (the [order], or the Profile's [_id],
    cannot be encoded).  On both raises the two collections are
    untouched.  The stored document has exactly the seven fields [_id],
    [title], [url], [icon_type], [order], [profile_id], [created_at]; its
    [order] fits a signed 64-bit integer, [profile_id] is the [_id] of the
    first Profile document and [created_at] the clock reading. *)
Theorem create_link_stamps (ld : SocialLinkCreate.t) (w : world)
    (p : doc) (rest : list doc) (pid : value) :
  bio_profiles w = p :: rest ->
  p !! "_id" = Some pid ->
  (forall res w',
     create_link ld w = (Return res, w') ->
     exists d : doc,
       res = Some (convert_object_id d)
       /\ w' = World (bio_profiles w) (social_links w ++ [d])
                     (S (clock w)) (S (oid_counter w))
       /\ d !! "profile_id" = Some pid
       /\ d !! "created_at" = Some (VDate (utcnow_at (clock w)))
       /\ d !! "order" = Some (VInt (SocialLinkCreate.order ld))
       /\ fits_int64 (SocialLinkCreate.order ld) = true
       /\ dom d = ({[ "_id"; "title"; "url"; "icon_type"; "order";
                      "profile_id"; "created_at" ]} : gset string))
  /\ (forall e w',
        create_link ld w = (Raise e, w') ->
        bio_profiles w' = bio_profiles w
        /\ social_links w' = social_links w
        /\ ((e = DuplicateKeyError
             /\ Exists (has_id (VOid (ObjectId_at (oid_counter w))))
                  (social_links w))
            \/ (e = OverflowError
                /\ (fits_int64 (SocialLinkCreate.order ld) = false
                    \/ encodable_value pid = false))))
  /\ (fits_int64 (SocialLinkCreate.order ld) = false ->
      create_link ld w
      = (Raise OverflowError,
         World (bio_profiles w) (social_links w)
               (S (clock w)) (S (oid_counter w)))).
Proof.
  intros Hb Hid.
  rewrite (create_link_run _ _ _ _ ld w p rest pid Hb Hid). cbv zeta.
  set (d := <[ "_id" := VOid (ObjectId_at (oid_counter w)) ]>
              (new_link_doc ld pid (utcnow_at (clock w)))).
  assert (d !! "order" = Some (VInt (SocialLinkCreate.order ld))) as Hord.
  { unfold d, new_link_doc, SocialLinkCreate.dict.
    by rewrite !lookup_insert_ne, lookup_singleton_eq by done. }
  assert (d !! "profile_id" = Some pid) as Hpid.
  { unfold d, new_link_doc.
    by rewrite lookup_insert_ne, lookup_insert_ne, lookup_insert_eq by done. }
  split_and!.
  - intros res w' Hrun.
    destruct (encodable d) eqn:He; [|discriminate Hrun].
    destruct (decide _) as [Hex|Hno]; [discriminate Hrun|].
    injection Hrun as <- <-.
    exists d. split; [reflexivity|]. split; [reflexivity|].
    split_and!.
    + exact Hpid.
    + unfold d, new_link_doc.
      by rewrite lookup_insert_ne, lookup_insert_eq by done.
    + exact Hord.
    + rewrite encodable_true in He. exact (He _ _ Hord).
    + unfold d, new_link_doc, SocialLinkCreate.dict.
      rewrite !dom_insert_L, dom_singleton_L. set_solver.
  - intros e w' Hrun.
    destruct (encodable d) eqn:He.
    + destruct (decide _) as [Hex|Hno]; [|discriminate Hrun].
      injection Hrun as <- <-.
      split; [reflexivity|]. split; [reflexivity|].
      left. split; [reflexivity|exact Hex].
    + injection Hrun as <- <-.
      split; [reflexivity|]. split; [reflexivity|].
      right. split; [reflexivity|].
      destruct (encodable_value pid) eqn:Hp; [|right; reflexivity]. left.
      unfold d in He. rewrite new_link_doc_encodable in He by exact Hp.
      exact He.
  - intros Hfit.
    assert (encodable d = false) as ->; [|reflexivity].
    apply (encodable_false _ "order" (VInt (SocialLinkCreate.order ld)));
      [exact Hord|exact Hfit].
Qed.

(** ** Reading after startup *)

Lemma column_convert (k : string) (l : list doc) :
  k <> "id" -> k <> "_id" ->
  column k (convert_object_id <$> l) = column k l.
Proof.
  intros. unfold column. rewrite <- list_fmap_compose.
  apply list_fmap_ext. intros i d _. cbn. by apply convert_lookup_other.
Qed.

(** X14: startup on an empty store.  When both collections are empty and
    the next five generated ObjectIds are distinct, after
    [init_default_data] the route [get_profile] returns the default
    Profile (name "ZwQ", its identity the first generated ObjectId) and
    [get_links] returns the five default Links in the order Facebook,
    Discord, Steam, GitHub, YouTube, with [order] 1 to 5. *)
Theorem startup_then_reads (w : world) :
  bio_profiles w = [] ->
  social_links w = [] ->
  NoDup (ObjectId_at <$> seq (S (oid_counter w)) 5) ->
  let w1 := (init_default_data utcnow_at ObjectId_at w).2 in
  exists (r : doc) (out : list doc),
    get_profile w1 = (Return r, w1)
    /\ r !! "name" = Some (VStr "ZwQ")
    /\ r !! "id" = Some (VStr (str_of_ObjectId (ObjectId_at (oid_counter w))))
    /\ get_links w1 = (Return out, w1)
    /\ column "title" out
       = (Some ∘ VStr)
           <$> ["Facebook"; "Discord"; "Steam"; "GitHub"; "YouTube"]
    /\ column "order" out = (Some ∘ VInt) <$> [1; 2; 3; 4; 5].
Proof.
  intros Hb Hs Hnd w1. unfold w1.
  rewrite init_default_data_run by done. cbv zeta.
  unfold insert_many, bind. rewrite with_ids_default_links. cbv zeta.
  rewrite encode_default_links by done. cbv zeta.
  rewrite store_docs_fresh.
  - cbn [snd coll set_coll bio_profiles social_links clock oid_counter].
    rewrite Hs. eexists _, _. split.
    { eapply get_profile_run; [reflexivity|]. apply lookup_insert_eq. }
    split.
    { rewrite convert_lookup_other by done.
      by rewrite lookup_insert_ne by done. }
    split.
    { by rewrite (convert_lookup_id _ _ _ (VOid (ObjectId_at (oid_counter w))))
        by apply lookup_insert_eq. }
    split; [apply get_links_run|].
    rewrite !column_convert by done.
    split; reflexivity.
  - cbn. cbn in Hnd. by apply (NoDup_fmap_2 VOid) in Hnd.
  - cbn. repeat constructor; unfold has_id; cbn [fst snd];
      by rewrite lookup_insert_eq.
  - cbn [coll social_links]. rewrite Hs.
    apply Forall_forall. intros vd _ Hex. by apply Exists_nil in Hex.
Qed.
End Responses.

(** ** The lazy connection *)

Section LazyConnection.
Variable Client : Type.
Variable AsyncIOMotorClient : string -> option Client.
Variable valid_db_name : string -> bool.

Local Abbreviation get_db :=
  (Lazy.get_db Client AsyncIOMotorClient valid_db_name).

(** X15: [get_db] connects at most once.  A call that returns leaves a
    client in the globals, and every later call, whatever the
    environment then holds, returns the same database without touching
    the globals.  A call that raises [KeyError] (a missing [MONGO_URL],
    checked first, or [DB_NAME]) or on the client constructor leaves the
    globals as they were, so the next call tries again.  A call that
    raises [InvalidName] on the database name has already bound the
    client: [db] is left as it was, and every later call returns that
    [db] (none, on fresh globals) without connecting again. *)
Theorem get_db_connects_once
    (environ : gmap string string) (g : Lazy.globals Client) :
  (forall r g',
     get_db environ g = (inr r, g') ->
     is_Some (Lazy.client Client g')
     /\ (forall environ', get_db environ' g' = (inr r, g')))
  /\ (forall e g',
        get_db environ g = (inl e, g') ->
        Lazy.client Client g = None
        /\ ((e <> Lazy.InvalidName /\ g' = g)
            \/ (e = Lazy.InvalidName
                /\ is_Some (Lazy.client Client g')
                /\ Lazy.db Client g' = Lazy.db Client g
                /\ (forall environ',
                      get_db environ' g'
                      = (inr (Lazy.db Client g), g')))))
  /\ (Lazy.client Client g = None ->
      environ !! "MONGO_URL" = None ->
      get_db environ g = (inl (Lazy.KeyError "MONGO_URL"), g))
  /\ (Lazy.client Client g = None ->
      is_Some (environ !! "MONGO_URL") ->
      environ !! "DB_NAME" = None ->
      get_db environ g = (inl (Lazy.KeyError "DB_NAME"), g))
  /\ (forall mongo_url db_name c,
        Lazy.client Client g = None ->
        environ !! "MONGO_URL" = Some mongo_url ->
        environ !! "DB_NAME" = Some db_name ->
        AsyncIOMotorClient mongo_url = Some c ->
        (valid_db_name db_name = true ->
         get_db environ g
         = (inr (Some (c, db_name)),
            Lazy.Globals Client (Some c) (Some (c, db_name))))
        /\ (valid_db_name db_name = false ->
            get_db environ g
            = (inl Lazy.InvalidName,
               Lazy.Globals Client (Some c) (Lazy.db Client g)))).
Proof.
  split_and!.
  - intros r g'. unfold Lazy.get_db.
    destruct (Lazy.client Client g) as [c|] eqn:Hc.
    + intros [= <- <-]. split; [by eexists|]. intros environ'. by rewrite Hc.
    + destruct (environ !! "MONGO_URL") as [u|]; [|discriminate].
      destruct (environ !! "DB_NAME") as [n|]; [|discriminate].
      destruct (AsyncIOMotorClient u) as [c|]; [|discriminate].
      destruct (valid_db_name n); [|discriminate].
      cbn. intros [= <- <-]. split; [by eexists|]. reflexivity.
  - intros e g'. unfold Lazy.get_db.
    destruct (Lazy.client Client g) as [c|] eqn:Hc; [discriminate|].
    destruct (environ !! "MONGO_URL") as [u|];
      [|intros [= <- <-]; split; [reflexivity|by left]].
    destruct (environ !! "DB_NAME") as [n|];
      [|intros [= <- <-]; split; [reflexivity|by left]].
    destruct (AsyncIOMotorClient u) as [c|];
      [|intros [= <- <-]; split; [reflexivity|by left]].
    destruct (valid_db_name n); [discriminate|].
    intros [= <- <-]. split; [reflexivity|]. right.
    split; [reflexivity|]. split; [by eexists|]. split; reflexivity.
  - intros Hc Hu. unfold Lazy.get_db. by rewrite Hc, Hu.
  - intros Hc [u Hu] Hn. unfold Lazy.get_db. by rewrite Hc, Hu, Hn.
  - intros u n c Hc Hu Hn Hcon. unfold Lazy.get_db.
    rewrite Hc, Hu, Hn, Hcon. split; by intros ->.
Qed.
End LazyConnection.

(** ** Further runs on concrete stores *)

Section MoreRuns.
Import Sample Demo.

Local Abbreviation get_profile := (get_profile str_of_ObjectId str_of_datetime).
Local Abbreviation get_links := (get_links str_of_ObjectId str_of_datetime).
Local Abbreviation update_profile :=
  (update_profile str_of_ObjectId str_of_datetime utcnow_at).
Local Abbreviation create_link :=
  (create_link str_of_ObjectId str_of_datetime utcnow_at ObjectId_at).
Local Abbreviation update_link :=
  (update_link ObjectId_of_str str_of_ObjectId str_of_datetime).
Local Abbreviation delete_link := (delete_link ObjectId_of_str).
Local Abbreviation convert_object_id :=
  (convert_object_id str_of_ObjectId str_of_datetime).

Lemma small_world_wf : store_wf small_world.
Proof.
  repeat split; apply (bool_decide_unpack _); vm_compute; exact I.
Defined.

Lemma update_link_errors_witness :
  (ObjectId_of_str "links" = None
   /\ update_link "links" patch_title small_world
      = (Raise (HTTPException 400 "Invalid link ID"), small_world))
  /\ (ObjectId_of_str id12 = Some 12%N
      /\ ~ Exists (has_id (VOid 12%N)) (social_links small_world)
      /\ update_link id12 patch_title small_world
         = (Raise (HTTPException 404 "Link not found"), small_world)).
Proof.
  assert (~ Exists (has_id (VOid 12%N)) (social_links small_world)) as Hno.
  { apply (bool_decide_unpack _). vm_compute. exact I. }
  split.
  - split; [reflexivity|].
    exact (proj1 (update_link_errors ObjectId_of_str str_of_ObjectId
                    str_of_datetime "links" patch_title small_world)
             eq_refl).
  - split; [reflexivity|]. split; [exact Hno|].
    exact (proj2 (update_link_errors ObjectId_of_str str_of_ObjectId
                    str_of_datetime id12 patch_title small_world)
             12%N eq_refl Hno).
Defined.

Lemma get_profile_reads_witness :
  (bio_profiles empty_world = []
   /\ get_profile empty_world
      = (Raise (HTTPException 404 "Profile not found"), empty_world))
  /\ (bio_profiles small_world = [profile0]
      /\ profile0 !! "_id" = Some (VOid 1%N)
      /\ exists r : doc,
           get_profile small_world = (Return r, small_world)
           /\ r !! "id" = Some (VStr "000000000000000000000001")
           /\ r !! "_id" = None).
Proof.
  split.
  - split; [reflexivity|].
    exact (proj1 (get_profile_reads str_of_ObjectId str_of_datetime
                    empty_world) eq_refl).
  - split; [reflexivity|]. split; [reflexivity|].
    destruct (proj2 (get_profile_reads str_of_ObjectId str_of_datetime
                       small_world) profile0 [] (VOid 1%N) eq_refl eq_refl)
      as (r & Hrun & Hid & Hno & _).
    exists r. split; [exact Hrun|]. split; [exact Hid|exact Hno].
Defined.

Lemma convert_object_id_idempotent_witness :
  profile0 !! "_id" = Some (VOid 1%N)
  /\ (<[ "id" := VInt 7 ]> profile0 : doc) !! "id" = Some (VInt 7)
  /\ convert_object_id (<[ "id" := VInt 7 ]> profile0) !! "id"
     = Some (VStr "000000000000000000000001").
Proof.
  split; [reflexivity|]. split; [reflexivity|].
  exact (proj2 (proj2 (proj2 (convert_object_id_idempotent str_of_ObjectId
                                str_of_datetime
                                (<[ "id" := VInt 7 ]> profile0))))
           (VOid 1%N) (VInt 7) eq_refl eq_refl).
Defined.

Lemma responses_hide__id_witness :
  get_profile small_world = (Return (convert_object_id profile0), small_world)
  /\ convert_object_id profile0 !! "_id" = None.
Proof.
  assert (get_profile small_world
          = (Return (convert_object_id profile0), small_world)) as Hrun.
  { reflexivity. }
  split; [exact Hrun|].
  exact (proj1 (responses_hide__id ObjectId_of_str str_of_ObjectId
                  str_of_datetime utcnow_at ObjectId_at small_world)
           _ _ Hrun).
Defined.

Lemma handlers_keep_store_wf_witness :
  store_wf small_world
  /\ store_wf (create_link new_link small_world).2.
Proof.
  split; [exact small_world_wf|].
  pose proof (proj1 (proj2 (proj2 (proj2 (proj2
                (handlers_keep_store_wf ObjectId_of_str str_of_ObjectId
                   str_of_datetime utcnow_at ObjectId_at)))))
                new_link small_world small_world_wf) as H.
  destruct (create_link new_link small_world) as [[r|e] w']; exact H.
Defined.

Lemma deleted_link_is_gone_witness :
  ObjectId_of_str id11 = Some 11%N
  /\ coll_wf (social_links small_world)
  /\ find_by_id (VOid 11%N) (social_links small_world) = Some (link0 11 3)
  /\ delete_link id11 (delete_link id11 small_world).2
     = (Raise (HTTPException 404 "Link not found"),
        (delete_link id11 small_world).2).
Proof.
  split; [reflexivity|]. split; [exact (proj2 small_world_wf)|].
  split; [reflexivity|].
  exact (proj1 (deleted_link_is_gone ObjectId_of_str str_of_ObjectId
                  str_of_datetime id11 11%N (link0 11 3) patch_title
                  small_world eq_refl (proj2 small_world_wf) eq_refl)).
Defined.

Lemma create_then_delete_witness :
  bio_profiles small_world = [profile0]
  /\ profile0 !! "_id" = Some (VOid 1%N)
  /\ create_link new_link small_world
     = (Return (Some (default ∅ created_small.1)), created_small.2)
  /\ ObjectId_of_str (str_of_ObjectId (ObjectId_at 0)) = Some (ObjectId_at 0)
  /\ delete_link (str_of_ObjectId (ObjectId_at 0)) created_small.2
     = (Return {[ "message" := VStr "Link deleted successfully" ]},
        World (bio_profiles small_world) (social_links small_world) 1 1).
Proof.
  assert (create_link new_link small_world
          = (Return (Some (default ∅ created_small.1)), created_small.2))
    as Hrun.
  { vm_compute. reflexivity. }
  split; [reflexivity|]. split; [reflexivity|]. split; [exact Hrun|].
  split; [reflexivity|].
  exact (proj2 (create_then_delete ObjectId_of_str str_of_ObjectId
                  str_of_datetime utcnow_at ObjectId_at new_link small_world
                  profile0 [] (VOid 1%N) _ _ eq_refl eq_refl Hrun eq_refl)).
Defined.

Lemma update_link_compose_witness :
  fits_int64_opt (SocialLinkUpdate.order patch_title) = true
  /\ fits_int64_opt (SocialLinkUpdate.order patch_order) = true
  /\ update_link id11 patch_order
       (update_link id11 patch_title small_world).2
     = update_link id11 (merge_update patch_order patch_title) small_world.
Proof.
  split; [reflexivity|]. split; [reflexivity|].
  exact (update_link_compose ObjectId_of_str str_of_ObjectId str_of_datetime
           id11 patch_title patch_order small_world eq_refl eq_refl).
Defined.

Lemma update_profile_last_wins_witness :
  bio_profiles small_world = [profile0]
  /\ profile0 !! "_id" = Some (VOid 1%N)
  /\ update_profile other_profile (update_profile new_profile small_world).2
     = update_profile other_profile (tick small_world).
Proof.
  split; [reflexivity|]. split; [reflexivity|].
  exact (update_profile_last_wins str_of_ObjectId str_of_datetime utcnow_at
           new_profile other_profile small_world profile0 [] (VOid 1%N)
           eq_refl eq_refl).
Defined.

Lemma get_profile_after_update_witness :
  bio_profiles small_world = [profile0]
  /\ profile0 !! "_id" = Some (VOid 1%N)
  /\ exists (r : doc) (w' : world),
       update_profile new_profile small_world = (Return (Some r), w')
       /\ get_profile w' = (Return r, w')
       /\ r !! "name" = Some (VStr "Zed").
Proof.
  split; [reflexivity|]. split; [reflexivity|].
  destruct (get_profile_after_update str_of_ObjectId str_of_datetime
              utcnow_at new_profile small_world profile0 [] (VOid 1%N)
              eq_refl eq_refl)
    as (r & w' & Hrun & Hget & Hn & _).
  exists r, w'. split; [exact Hrun|]. split; [exact Hget|exact Hn].
Defined.

Lemma create_link_stamps_witness :
  bio_profiles small_world = [profile0]
  /\ profile0 !! "_id" = Some (VOid 1%N)
  /\ create_link new_link small_world
     = (Return created_small.1, created_small.2)
  /\ exists d : doc,
       created_small.1 = Some (convert_object_id d)
       /\ d !! "profile_id" = Some (VOid 1%N)
       /\ d !! "created_at" = Some (VDate (utcnow_at 0)).
Proof.
  assert (create_link new_link small_world
          = (Return created_small.1, created_small.2)) as Hrun.
  { vm_compute. reflexivity. }
  split; [reflexivity|]. split; [reflexivity|]. split; [exact Hrun|].
  destruct (proj1 (create_link_stamps str_of_ObjectId str_of_datetime
                     utcnow_at ObjectId_at new_link small_world
                     profile0 [] (VOid 1%N) eq_refl eq_refl)
              _ _ Hrun)
    as (d & Hres & _ & Hp & Hc & _).
  exists d. split; [exact Hres|]. split; [exact Hp|exact Hc].
Defined.

Lemma startup_then_reads_witness :
  bio_profiles empty_world = []
  /\ social_links empty_world = []
  /\ NoDup (ObjectId_at <$> seq 1 5)
  /\ exists (r : doc) (out : list doc),
       get_profile (init_default_data utcnow_at ObjectId_at empty_world).2
       = (Return r, (init_default_data utcnow_at ObjectId_at empty_world).2)
       /\ r !! "name" = Some (VStr "ZwQ")
       /\ get_links (init_default_data utcnow_at ObjectId_at empty_world).2
          = (Return out,
             (init_default_data utcnow_at ObjectId_at empty_world).2)
       /\ column "title" out
          = (Some ∘ VStr)
              <$> ["Facebook"; "Discord"; "Steam"; "GitHub"; "YouTube"].
Proof.
  assert (NoDup (ObjectId_at <$> seq 1 5)) as Hnd.
  { apply (bool_decide_unpack _). vm_compute. exact I. }
  split; [reflexivity|]. split; [reflexivity|]. split; [exact Hnd|].
  destruct (startup_then_reads str_of_ObjectId str_of_datetime utcnow_at
              ObjectId_at empty_world eq_refl eq_refl Hnd)
    as (r & out & Hget & Hn & _ & Hlinks & Ht & _).
  exists r, out. split; [exact Hget|]. split; [exact Hn|].
  split; [exact Hlinks|exact Ht].
Defined.

Lemma get_db_connects_once_witness :
  Lazy.client string no_globals = None
  /\ environ !! "MONGO_URL" = Some "mongodb://localhost:27017"
  /\ environ !! "DB_NAME" = Some "bio"
  /\ connect "mongodb://localhost:27017" = Some "mongodb://localhost:27017"
  /\ valid_db_name "bio" = true
  /\ Lazy.get_db string connect valid_db_name environ no_globals
     = (inr (Some ("mongodb://localhost:27017", "bio")),
        Lazy.Globals string (Some "mongodb://localhost:27017")
          (Some ("mongodb://localhost:27017", "bio")))
  /\ Lazy.get_db string connect valid_db_name ∅
       (Lazy.get_db string connect valid_db_name environ no_globals).2
     = (inr (Some ("mongodb://localhost:27017", "bio")),
        (Lazy.get_db string connect valid_db_name environ no_globals).2)
  /\ Lazy.get_db string connect valid_db_name ∅ no_globals
     = (inl (Lazy.KeyError "MONGO_URL"), no_globals)
  /\ environ_no_name !! "DB_NAME" = Some ""
  /\ valid_db_name "" = false
  /\ Lazy.get_db string connect valid_db_name environ_no_name no_globals
     = (inl Lazy.InvalidName,
        Lazy.Globals string (Some "mongodb://localhost:27017") None).
Proof.
  assert (Lazy.get_db string connect valid_db_name environ no_globals
          = (inr (Some ("mongodb://localhost:27017", "bio")),
             Lazy.Globals string (Some "mongodb://localhost:27017")
               (Some ("mongodb://localhost:27017", "bio")))) as Hrun.
  { exact (proj1 (proj2 (proj2 (proj2 (proj2
             (get_db_connects_once string connect valid_db_name environ
                no_globals))))
             "mongodb://localhost:27017" "bio" "mongodb://localhost:27017"
             eq_refl eq_refl eq_refl eq_refl) eq_refl). }
  split; [reflexivity|]. split; [reflexivity|]. split; [reflexivity|].
  split; [reflexivity|]. split; [reflexivity|]. split; [exact Hrun|].
  split.
  { rewrite Hrun.
    exact (proj2 (proj1 (get_db_connects_once string connect valid_db_name
                           environ no_globals) _ _ Hrun) ∅). }
  split.
  { exact (proj1 (proj2 (proj2 (get_db_connects_once string connect
                                  valid_db_name ∅ no_globals)))
             eq_refl eq_refl). }
  split; [reflexivity|]. split; [reflexivity|].
  exact (proj2 (proj2 (proj2 (proj2 (proj2
           (get_db_connects_once string connect valid_db_name
              environ_no_name no_globals))))
           "mongodb://localhost:27017" "" "mongodb://localhost:27017"
           eq_refl eq_refl eq_refl eq_refl) eq_refl).
Defined.

End MoreRuns.
